(** * Trigger detection, actor authorisation and CLI dispatch of the
    GitHub Action (src/github/validation/actor.ts and the CLI runner).

    JavaScript strings are sequences of UTF-16 code units; they are
    modelled as [list N].  [u] turns an ASCII literal of the source into
    such a sequence. *)

From Stdlib Require Import String Ascii List NArith ZArith Bool Lia PeanoNat.
Import ListNotations.
Open Scope bool_scope.
Set Warnings "-register-all".

Definition jstr := list N.

Definition u (s : string) : jstr :=
  map (fun a => N.of_nat (nat_of_ascii a)) (list_ascii_of_string s).

Fixpoint jstr_eqb (a b : jstr) : bool :=
  match a, b with
  | [], [] => true
  | x :: a', y :: b' => N.eqb x y && jstr_eqb a' b'
  | _, _ => false
  end.

(** [Array.prototype.includes] on an array of strings. *)
Definition includes (xs : list jstr) (x : jstr) : bool :=
  existsb (jstr_eqb x) xs.

(** [Array.prototype.join]. *)
Fixpoint join (sep : jstr) (xs : list jstr) : jstr :=
  match xs with
  | [] => []
  | [x] => x
  | x :: xs' => x ++ sep ++ join sep xs'
  end.

(** Exceptions: a computation either returns or throws an [Error] whose
    message is kept. *)
Inductive outcome (A : Type) : Type :=
| Ok (a : A)
| Throw (msg : jstr).
Arguments Ok {A} a.
Arguments Throw {A} msg.

Definition bind {A B} (m : outcome A) (f : A -> outcome B) : outcome B :=
  match m with
  | Ok a => f a
  | Throw e => Throw e
  end.

Notation "x <- m ;; k" := (bind m (fun x => k))
  (at level 61, m at next level, right associativity).

(** ** Regular expressions

    The fragment of ECMAScript pattern syntax the action builds:
    literal characters, identity escapes of syntax characters, [\s],
    character classes of such items, [^], [$], [.], groups and
    alternation.  Quantifiers, ranges and other escapes lie outside the
    fragment, and the parser rejects them. *)

(** [\s]: WhiteSpace and LineTerminator code units. *)
Definition is_space (c : N) : bool :=
  existsb (N.eqb c)
    [9; 10; 11; 12; 13; 32; 160; 5760; 8192; 8193; 8194; 8195; 8196; 8197;
     8198; 8199; 8200; 8201; 8202; 8232; 8233; 8239; 8287; 12288; 65279]%N.

Definition is_line_terminator (c : N) : bool :=
  existsb (N.eqb c) [10; 13; 8232; 8233]%N.

(** SyntaxCharacter: [^ $ \ . * + ? ( ) [ ] { } |]. *)
Definition is_syntax_char (c : N) : bool :=
  existsb (N.eqb c) (u ".*+?^${}()|[]\").

Definition ch (a : ascii) : N := N.of_nat (nat_of_ascii a).

Inductive citem :=
| CChar (c : N)
| CSpace.

Inductive regex :=
| REmpty
| RChar (c : N)
| RDot
| RSpace
| RClass (items : list citem)
| RBol
| REol
| RGroup (r : regex)
| RCat (r1 r2 : regex)
| RAlt (r1 r2 : regex).

Definition citem_mem (c : N) (i : citem) : bool :=
  match i with
  | CChar d => N.eqb c d
  | CSpace => is_space c
  end.

(** Backtracking matcher in continuation style: [mt r t i k] matches [r]
    against [t] from index [i] and hands every end index to [k]. *)
Fixpoint mt (r : regex) (t : jstr) (i : nat) (k : nat -> bool) : bool :=
  match r with
  | REmpty => k i
  | RChar c =>
      match nth_error t i with
      | Some d => N.eqb c d && k (S i)
      | None => false
      end
  | RDot =>
      match nth_error t i with
      | Some d => negb (is_line_terminator d) && k (S i)
      | None => false
      end
  | RSpace =>
      match nth_error t i with
      | Some d => is_space d && k (S i)
      | None => false
      end
  | RClass items =>
      match nth_error t i with
      | Some d => existsb (citem_mem d) items && k (S i)
      | None => false
      end
  | RBol => Nat.eqb i 0 && k i
  | REol => Nat.eqb i (length t) && k i
  | RGroup r => mt r t i k
  | RCat r1 r2 => mt r1 t i (fun j => mt r2 t j k)
  | RAlt r1 r2 => mt r1 t i k || mt r2 t i k
  end.

(** [RegExp.prototype.test] without the global or sticky flag: try every
    start index from 0 to the length of the text. *)
Definition test (r : regex) (t : jstr) : bool :=
  existsb (fun i => mt r t i (fun _ => true)) (seq 0 (S (length t))).

(** Code units compared by the parser: 40 [(], 41 [)], 124 [|], 94 [^],
    36 [$], 46 [.], 91 [[], 93 []], 92 [\], 115 [s], 45 [-]. *)

(** Pattern parser: a frame holds the finished alternatives and the terms
    of the current alternative, both most recent first; [cls] is the
    open character class, if any. *)
Record frame := { f_alts : list regex; f_seq : list regex }.

Definition empty_frame := {| f_alts := []; f_seq := [] |}.

Definition push (f : frame) (r : regex) : frame :=
  {| f_alts := f_alts f; f_seq := r :: f_seq f |}.

Definition cat_of (rev_terms : list regex) : regex :=
  fold_left (fun acc r => RCat r acc) rev_terms REmpty.

Fixpoint alt_of (rs : list regex) : regex :=
  match rs with
  | [] => REmpty
  | [r] => r
  | r :: rs' => RAlt r (alt_of rs')
  end.

Definition close (f : frame) : regex :=
  alt_of (rev (cat_of (f_seq f) :: f_alts f)).

Definition new_alt (f : frame) : frame :=
  {| f_alts := cat_of (f_seq f) :: f_alts f; f_seq := [] |}.

Fixpoint pparse (cls : option (list citem)) (stack : list frame) (top : frame)
    (p : jstr) : option regex :=
  match cls, p with
  | None, [] =>
      match stack with
      | [] => Some (close top)
      | _ => None
      end
  | Some _, [] => None
  | Some items, c :: rest =>
      if N.eqb c 93%N then
        pparse None stack (push top (RClass (rev items))) rest
      else if N.eqb c 92%N then
        match rest with
        | [] => None
        | e :: rest' =>
            if N.eqb e 115%N then pparse (Some (CSpace :: items)) stack top rest'
            else if is_syntax_char e then
              pparse (Some (CChar e :: items)) stack top rest'
            else None
        end
      else if N.eqb c 45%N then None
      else if (N.eqb c 94%N && match items with [] => true | _ => false end)
      then None
      else pparse (Some (CChar c :: items)) stack top rest
  | None, c :: rest =>
      if N.eqb c 40%N then pparse None (top :: stack) empty_frame rest
      else if N.eqb c 41%N then
        match stack with
        | [] => None
        | parent :: stack' => pparse None stack' (push parent (RGroup (close top))) rest
        end
      else if N.eqb c 124%N then pparse None stack (new_alt top) rest
      else if N.eqb c 94%N then pparse None stack (push top RBol) rest
      else if N.eqb c 36%N then pparse None stack (push top REol) rest
      else if N.eqb c 46%N then pparse None stack (push top RDot) rest
      else if N.eqb c 91%N then pparse (Some []) stack top rest
      else if N.eqb c 92%N then
        match rest with
        | [] => None
        | e :: rest' =>
            if N.eqb e 115%N then pparse None stack (push top RSpace) rest'
            else if is_syntax_char e then pparse None stack (push top (RChar e)) rest'
            else None
        end
      else if existsb (N.eqb c) (u "*+?{") then None
      else pparse None stack (push top (RChar c)) rest
  end.

(** [new RegExp(p)]: a pattern that does not parse throws. *)
Definition newRegExp (p : jstr) : outcome regex :=
  match pparse None [] empty_frame p with
  | Some r => Ok r
  | None => Throw (u "SyntaxError: Invalid regular expression")
  end.

(** [escapeRegExp]: [string.replace(/[.*+?^${}()|[\]\\]/g, "\\$&")]. *)
Fixpoint escapeRegExp (s : jstr) : jstr :=
  match s with
  | [] => []
  | c :: s' =>
      if is_syntax_char c then 92%N :: c :: escapeRegExp s'
      else c :: escapeRegExp s'
  end.

(** ** detectAIProvider *)

Inductive AIProvider := claude | augment.

Definition compile_literal (p : string) : regex :=
  match newRegExp (u p) with
  | Ok r => r
  | Throw _ => REmpty
  end.

Definition augmentRegex : regex :=
  Eval cbv in compile_literal "(^|\s)@augment([\s.,!?;:]|$)".

Definition claudeRegex : regex :=
  Eval cbv in compile_literal "(^|\s)@claude([\s.,!?;:]|$)".

Definition detectAIProvider (text : jstr) : option AIProvider :=
  if test augmentRegex text then Some augment
  else if test claudeRegex text then Some claude
  else None.

(** The pattern [checkContainsTrigger] builds around a trigger phrase. *)
Definition trigger_pattern (phrase : jstr) : jstr :=
  u "(^|\s)" ++ escapeRegExp phrase ++ u "([\s.,!?;:]|$)".

(** ** Specification-side vocabulary *)

(** [tok] occurs in [t] at index [i]. *)
Fixpoint lits_at (tok t : jstr) (i : nat) : bool :=
  match tok with
  | [] => true
  | c :: tok' =>
      match nth_error t i with
      | Some d => N.eqb c d && lits_at tok' t (S i)
      | None => false
      end
  end.

(** Left boundary: start of string or a whitespace code unit before [i]. *)
Definition left_ok (t : jstr) (i : nat) : bool :=
  match i with
  | 0 => true
  | S p => match nth_error t p with Some d => is_space d | None => false end
  end.

(** Right boundary: end of string or one of whitespace, [. , ! ? ; :]. *)
Definition right_ok (t : jstr) (j : nat) : bool :=
  match nth_error t j with
  | Some d => is_space d || existsb (N.eqb d) (u ".,!?;:")
  | None => Nat.eqb j (length t)
  end.

(** [tok] occurs in [t] at [i] as a standalone word. *)
Definition word_at (tok t : jstr) (i : nat) : bool :=
  left_ok t i && lits_at tok t i && right_ok t (i + length tok).

Definition standalone (tok t : jstr) : Prop :=
  exists i, i <= length t /\ word_at tok t i = true.

(** [s] occurs in [t] as a substring. *)
Definition substring (s t : jstr) : Prop :=
  exists pre post, t = pre ++ s ++ post.

(** ** What the trigger patterns compile to *)

Definition left_group : regex :=
  RAlt (RCat RBol REmpty) (RCat RSpace REmpty).

Definition right_group : regex :=
  RAlt (RCat (RClass [CSpace; CChar 46; CChar 44; CChar 33; CChar 63; CChar 59; CChar 58]%N)
             REmpty)
       (RCat REol REmpty).

Definition word_re (tok : jstr) : regex :=
  fold_right RCat REmpty ([RGroup left_group] ++ map RChar tok ++ [RGroup right_group]).

(** ** Event context and checkContainsTrigger *)

Record Inputs := {
  triggerPhrase : jstr;
  assigneeTrigger : jstr;
  directPrompt : jstr;
  allowedBotNames : list jstr
}.

(** The payload fields the action reads; [None] is [null]/[undefined]. *)
Record Payload := {
  assignee_login : option jstr;
  issue_body : option jstr;
  issue_title : option jstr;
  pull_request_body : option jstr;
  pull_request_title : option jstr;
  review_body : option jstr;
  comment_body : jstr
}.

Record Repository := { owner : jstr; repo : jstr }.

Record ParsedGitHubContext := {
  eventName : jstr;
  eventAction : jstr;
  repository : Repository;
  actor : jstr;
  inputs : Inputs;
  payload : Payload
}.

(** [x || ""] on a possibly missing string. *)
Definition or_empty (o : option jstr) : jstr :=
  match o with Some s => s | None => [] end.

(** Truthiness of a string. *)
Definition truthy (s : jstr) : bool :=
  match s with [] => false | _ => true end.

(** Modelled from the spec: the event guards of [../context]
    ([isIssuesEvent], [isIssuesAssignedEvent], [isIssueCommentEvent],
    [isPullRequestEvent], [isPullRequestReviewEvent],
    [isPullRequestReviewCommentEvent]), which test the event name and,
    for an assignment, the action. *)
Definition isIssuesEvent (c : ParsedGitHubContext) : bool :=
  jstr_eqb (eventName c) (u "issues").
Definition isIssuesAssignedEvent (c : ParsedGitHubContext) : bool :=
  isIssuesEvent c && jstr_eqb (eventAction c) (u "assigned").
Definition isIssueCommentEvent (c : ParsedGitHubContext) : bool :=
  jstr_eqb (eventName c) (u "issue_comment").
Definition isPullRequestEvent (c : ParsedGitHubContext) : bool :=
  jstr_eqb (eventName c) (u "pull_request").
Definition isPullRequestReviewEvent (c : ParsedGitHubContext) : bool :=
  jstr_eqb (eventName c) (u "pull_request_review").
Definition isPullRequestReviewCommentEvent (c : ParsedGitHubContext) : bool :=
  jstr_eqb (eventName c) (u "pull_request_review_comment").

Record TriggerResult := {
  containsTrigger : bool;
  aiProvider : option AIProvider
}.

Definition triggered (a : AIProvider) : TriggerResult :=
  {| containsTrigger := true; aiProvider := Some a |}.

(** [assigneeTrigger.replace(/^@/, "")]. *)
Definition strip_at (s : jstr) : jstr :=
  match s with
  | c :: s' => if N.eqb c 64 then s' else s
  | [] => []
  end.

(** One block of [checkContainsTrigger]: [Some] when it returns, [None]
    when control falls through to the next block. *)
Definition fall_through (m : outcome (option TriggerResult))
    (k : outcome TriggerResult) : outcome TriggerResult :=
  match m with
  | Ok (Some r) => Ok r
  | Ok None => k
  | Throw e => Throw e
  end.

(** The provider scan of a body then a title, then the trigger phrase in
    the body, then in the title (the issue and pull-request blocks). *)
Definition body_title_block (phrase body title : jstr)
    : outcome (option TriggerResult) :=
  let ai := match detectAIProvider body with
            | Some a => Some a
            | None => detectAIProvider title
            end in
  match ai with
  | Some a => Ok (Some (triggered a))
  | None =>
      regex <- newRegExp (trigger_pattern phrase) ;;
      if test regex body then Ok (Some (triggered claude))
      else if test regex title then Ok (Some (triggered claude))
      else Ok None
  end.

(** The review and comment blocks: one body. *)
Definition body_block (phrase body : jstr) : outcome (option TriggerResult) :=
  match detectAIProvider body with
  | Some a => Ok (Some (triggered a))
  | None =>
      regex <- newRegExp (trigger_pattern phrase) ;;
      if test regex body then Ok (Some (triggered claude)) else Ok None
  end.

Definition checkContainsTrigger (context : ParsedGitHubContext)
    : outcome TriggerResult :=
  let i := inputs context in
  let p := payload context in
  if truthy (directPrompt i) then Ok (triggered claude) else
  fall_through
    (if isIssuesAssignedEvent context then
       let triggerUser := strip_at (assigneeTrigger i) in
       let assigneeUsername := or_empty (assignee_login p) in
       if truthy triggerUser && jstr_eqb assigneeUsername triggerUser
       then Ok (Some (triggered claude)) else Ok None
     else Ok None) (
  fall_through
    (if isIssuesEvent context && jstr_eqb (eventAction context) (u "opened")
     then body_title_block (triggerPhrase i) (or_empty (issue_body p))
            (or_empty (issue_title p))
     else Ok None) (
  fall_through
    (if isPullRequestEvent context
     then body_title_block (triggerPhrase i) (or_empty (pull_request_body p))
            (or_empty (pull_request_title p))
     else Ok None) (
  fall_through
    (if isPullRequestReviewEvent context &&
        (jstr_eqb (eventAction context) (u "submitted")
         || jstr_eqb (eventAction context) (u "edited"))
     then body_block (triggerPhrase i) (or_empty (review_body p))
     else Ok None) (
  fall_through
    (if isIssueCommentEvent context || isPullRequestReviewCommentEvent context
     then body_block (triggerPhrase i) (comment_body p)
     else Ok None) (
  Ok {| containsTrigger := false; aiProvider := None |}))))).

Definition sample_payload : Payload :=
  {| assignee_login := None; issue_body := Some (u "@claude, can you help?");
     issue_title := Some (u "Bug"); pull_request_body := None;
     pull_request_title := None; review_body := None; comment_body := [] |}.

Definition sample_inputs : Inputs :=
  {| triggerPhrase := u "@claude"; assigneeTrigger := []; directPrompt := [];
     allowedBotNames := [] |}.

Definition sample_context : ParsedGitHubContext :=
  {| eventName := u "issues"; eventAction := u "opened";
     repository := {| owner := u "acme"; repo := u "app" |};
     actor := u "octocat"; inputs := sample_inputs; payload := sample_payload |}.

(** ** Actor authorisation *)

(** The REST calls the checks make. *)
Inductive ApiCall :=
| GetByUsername (username : jstr)
| GetCollaboratorPermissionLevel (owner repo username : jstr).

(** The Octokit client: each call answers with the field the code reads
    ([data.type], [data.permission]) or throws; a thrown value is kept as
    the text [`${error}`] renders. *)
Record Octokit := {
  users_getByUsername : jstr -> outcome jstr;
  repos_getCollaboratorPermissionLevel : jstr -> jstr -> jstr -> outcome jstr
}.

(** Async code over the client: state passing of the trace of calls made,
    with exceptions. *)
Definition M (A : Type) : Type := list ApiCall -> outcome A * list ApiCall.

Definition ret {A} (a : A) : M A := fun tr => (Ok a, tr).
Definition throw {A} (msg : jstr) : M A := fun tr => (Throw msg, tr).
Definition bindM {A B} (m : M A) (k : A -> M B) : M B :=
  fun tr => match m tr with
            | (Ok a, tr') => k a tr'
            | (Throw e, tr') => (Throw e, tr')
            end.
Definition catchM {A} (m : M A) (h : jstr -> M A) : M A :=
  fun tr => match m tr with
            | (Throw e, tr') => h e tr'
            | r => r
            end.

Notation "'let!' x ':=' m 'in' k" := (bindM m (fun x => k))
  (at level 200, x name, m at level 100, right associativity).

Definition getByUsername (o : Octokit) (username : jstr) : M jstr :=
  fun tr => (users_getByUsername o username, tr ++ [GetByUsername username]).

Definition getCollaboratorPermissionLevel (o : Octokit) (ow rp username : jstr)
    : M jstr :=
  fun tr => (repos_getCollaboratorPermissionLevel o ow rp username,
             tr ++ [GetCollaboratorPermissionLevel ow rp username]).

Definition unauthorized_message (a actorType : jstr) (names : list jstr) : jstr :=
  u "Workflow initiated by unauthorized actor: " ++ a ++ u " (type: " ++ actorType
  ++ u "). " ++ u "Only human users and whitelisted bots are allowed."
  ++ (if Nat.ltb 0 (length names) then u " Allowed bots: " ++ join (u ", ") names
      else []).

Definition checkAllowedActor (octokit : Octokit) (githubContext : ParsedGitHubContext)
    : M unit :=
  let! actorType := getByUsername octokit (actor githubContext) in
  let a := actor githubContext in
  if jstr_eqb actorType (u "User") then ret tt else
  let names := allowedBotNames (inputs githubContext) in
  if jstr_eqb actorType (u "Bot") && (Nat.ltb 0 (length names) && includes names a)
  then ret tt
  else throw (unauthorized_message a actorType names).

Definition checkWritePermissions (octokit : Octokit) (context : ParsedGitHubContext)
    : M bool :=
  let a := actor context in
  let r := repository context in
  catchM
    (if includes (allowedBotNames (inputs context)) a then ret true else
     let! permissionLevel :=
       getCollaboratorPermissionLevel octokit (owner r) (repo r) a in
     if jstr_eqb permissionLevel (u "admin") || jstr_eqb permissionLevel (u "write")
     then ret true else ret false)
    (fun error => throw (u "Failed to check permissions for " ++ a ++ u ": " ++ error)).

(** ** JSON.parse *)

Inductive json :=
| JNull
| JBool (b : bool)
| JNum (text : jstr)
| JStr (s : jstr)
| JArr (vs : list json)
| JObj (kvs : list (jstr * json)).

Definition is_json_ws (c : N) : bool := existsb (N.eqb c) [32; 9; 10; 13]%N.

Fixpoint skip_ws (s : jstr) : jstr :=
  match s with
  | c :: r => if is_json_ws c then skip_ws r else s
  | [] => []
  end.

Definition is_digit (c : N) : bool := (48 <=? c)%N && (c <=? 57)%N.

Definition hexval (c : N) : option N :=
  if is_digit c then Some (c - 48)%N
  else if (65 <=? c)%N && (c <=? 70)%N then Some (c - 55)%N
  else if (97 <=? c)%N && (c <=? 102)%N then Some (c - 87)%N
  else None.

(** Body of a string literal after the opening quote; [acc] is reversed. *)
Fixpoint jstring (s acc : jstr) : option (jstr * jstr) :=
  match s with
  | [] => None
  | c :: r =>
      if N.eqb c 34 then Some (rev acc, r)
      else if N.eqb c 92 then
        match r with
        | [] => None
        | e :: r' =>
            if N.eqb e 117 then
              match r' with
              | h1 :: h2 :: h3 :: h4 :: r'' =>
                  match hexval h1, hexval h2, hexval h3, hexval h4 with
                  | Some a, Some b, Some c', Some d =>
                      jstring r'' ((((a * 16 + b) * 16 + c') * 16 + d)%N :: acc)
                  | _, _, _, _ => None
                  end
              | _ => None
              end
            else
              match (if N.eqb e 34 then Some 34 else if N.eqb e 92 then Some 92
                     else if N.eqb e 47 then Some 47 else if N.eqb e 98 then Some 8
                     else if N.eqb e 102 then Some 12 else if N.eqb e 110 then Some 10
                     else if N.eqb e 114 then Some 13 else if N.eqb e 116 then Some 9
                     else None)%N with
              | Some x => jstring r' (x :: acc)
              | None => None
              end
        end
      else if (c <? 32)%N then None
      else jstring r (c :: acc)
  end.

Fixpoint span_digits (s : jstr) : jstr * jstr :=
  match s with
  | c :: r => if is_digit c then let '(d, r') := span_digits r in (c :: d, r')
              else ([], s)
  | [] => ([], [])
  end.

Definition digits1 (s : jstr) : option (jstr * jstr) :=
  match span_digits s with
  | ([], _) => None
  | dr => Some dr
  end.

(** [-? (0 | [1-9][0-9]* ) (. [0-9]+)? ([eE] [+-]? [0-9]+)?] *)
Definition jnumber (s : jstr) : option (jstr * jstr) :=
  let '(sign, s1) := match s with
                     | c :: r => if N.eqb c 45 then ([c], r) else ([], s)
                     | [] => ([], [])
                     end in
  let int := match s1 with
             | c :: r => if N.eqb c 48 then Some ([c], r)
                         else if is_digit c then digits1 s1 else None
             | [] => None
             end in
  match int with
  | None => None
  | Some (i, s2) =>
      let frac := match s2 with
                  | c :: r => if N.eqb c 46 then
                                match digits1 r with
                                | Some (d, r') => Some (c :: d, r')
                                | None => None
                                end
                              else Some ([], s2)
                  | [] => Some ([], [])
                  end in
      match frac with
      | None => None
      | Some (fr, s3) =>
          let exp := match s3 with
                     | c :: r =>
                         if N.eqb c 101 || N.eqb c 69 then
                           let '(sg, r1) := match r with
                                            | d :: r' => if N.eqb d 43 || N.eqb d 45
                                                         then ([d], r') else ([], r)
                                            | [] => ([], [])
                                            end in
                           match digits1 r1 with
                           | Some (d, r') => Some (c :: sg ++ d, r')
                           | None => None
                           end
                         else Some ([], s3)
                     | [] => Some ([], [])
                     end in
          match exp with
          | None => None
          | Some (ex, s4) => Some (sign ++ i ++ fr ++ ex, s4)
          end
      end
  end.

(** [CreateDataProperty] on an object kept as an ordered list of entries:
    an existing key keeps its place and takes the new value. *)
Definition assign (kvs : list (jstr * json)) (kv : jstr * json) : list (jstr * json) :=
  if existsb (fun e => jstr_eqb (fst e) (fst kv)) kvs
  then map (fun e => if jstr_eqb (fst e) (fst kv) then kv else e) kvs
  else kvs ++ [kv].

Fixpoint has_prefix (p s : jstr) : option jstr :=
  match p, s with
  | [], _ => Some s
  | x :: p', y :: s' => if N.eqb x y then has_prefix p' s' else None
  | _, [] => None
  end.

Fixpoint jvalue (fuel : nat) (s : jstr) : option (json * jstr) :=
  match fuel with
  | 0 => None
  | S f =>
      match skip_ws s with
      | [] => None
      | c :: r =>
          if N.eqb c 123 then jmembers f (skip_ws r) []
          else if N.eqb c 91 then jelements f (skip_ws r) []
          else if N.eqb c 34 then
            match jstring r [] with
            | Some (str, r') => Some (JStr str, r')
            | None => None
            end
          else match has_prefix (u "null") (c :: r) with
          | Some r' => Some (JNull, r')
          | None => match has_prefix (u "true") (c :: r) with
          | Some r' => Some (JBool true, r')
          | None => match has_prefix (u "false") (c :: r) with
          | Some r' => Some (JBool false, r')
          | None => match jnumber (c :: r) with
          | Some (num, r') => Some (JNum num, r')
          | None => None
          end end end end
      end
  end
with jelements (fuel : nat) (s : jstr) (acc : list json) : option (json * jstr) :=
  match fuel with
  | 0 => None
  | S f =>
      match s, acc with
      | c :: r, [] => if N.eqb c 93 then Some (JArr [], r) else jelements_item f s acc
      | _, _ => jelements_item f s acc
      end
  end
with jelements_item (fuel : nat) (s : jstr) (acc : list json) : option (json * jstr) :=
  match fuel with
  | 0 => None
  | S f =>
      match jvalue f s with
      | None => None
      | Some (v, r) =>
          match skip_ws r with
          | c :: r' => if N.eqb c 44 then jelements f r' (v :: acc)
                       else if N.eqb c 93 then Some (JArr (rev (v :: acc)), r')
                       else None
          | [] => None
          end
      end
  end
with jmembers (fuel : nat) (s : jstr) (acc : list (jstr * json)) : option (json * jstr) :=
  match fuel with
  | 0 => None
  | S f =>
      match s with
      | c :: r =>
          if N.eqb c 125 then
            match acc with [] => Some (JObj [], r) | _ => None end
          else if N.eqb c 34 then
            match jstring r [] with
            | None => None
            | Some (key, r1) =>
                match skip_ws r1 with
                | d :: r2 =>
                    if N.eqb d 58 then
                      match jvalue f r2 with
                      | None => None
                      | Some (v, r3) =>
                          match skip_ws r3 with
                          | e :: r4 =>
                              if N.eqb e 44 then jmembers f (skip_ws r4) (assign acc (key, v))
                              else if N.eqb e 125 then Some (JObj (assign acc (key, v)), r4)
                              else None
                          | [] => None
                          end
                      end
                    else None
                | [] => None
                end
            end
          else None
      | [] => None
      end
  end.

(** [JSON.parse(text)]: any two nested calls consume input, so fuel
    three times the length plus three is enough. *)
Definition JSON_parse (text : jstr) : outcome json :=
  match jvalue (3 * length text + 3) text with
  | Some (v, rest) =>
      match skip_ws rest with
      | [] => Ok v
      | _ => Throw (u "SyntaxError: Unexpected non-whitespace character after JSON")
      end
  | None => Throw (u "SyntaxError: Unexpected token in JSON")
  end.

(** Test inputs write a double quote as a single quote. *)
Definition uq (s : string) : jstr := map (fun c => if N.eqb c 39 then 34%N else c) (u s).

(** ** CLI tool dispatch *)

(** Decimal text of an array index, the key object spread gives it. *)
Fixpoint uint_text (d : Decimal.uint) : jstr :=
  match d with
  | Decimal.Nil => []
  | Decimal.D0 d' => 48%N :: uint_text d'
  | Decimal.D1 d' => 49%N :: uint_text d'
  | Decimal.D2 d' => 50%N :: uint_text d'
  | Decimal.D3 d' => 51%N :: uint_text d'
  | Decimal.D4 d' => 52%N :: uint_text d'
  | Decimal.D5 d' => 53%N :: uint_text d'
  | Decimal.D6 d' => 54%N :: uint_text d'
  | Decimal.D7 d' => 55%N :: uint_text d'
  | Decimal.D8 d' => 56%N :: uint_text d'
  | Decimal.D9 d' => 57%N :: uint_text d'
  end.

Definition indexed (vs : list json) : list (jstr * json) :=
  combine (map (fun n => uint_text (Nat.to_uint n)) (seq 0 (length vs))) vs.

(** Own enumerable properties copied by [...v] in an object literal. *)
Definition spread_entries (v : json) : list (jstr * json) :=
  match v with
  | JObj kvs => kvs
  | JArr vs => indexed vs
  | JStr s => indexed (map (fun c => JStr [c]) s)
  | _ => []
  end.

Record CliToolConfig := {
  command : jstr;
  installCommand : option (list jstr);
  args : list jstr;
  envSetup : list (jstr * json)
}.

(** The process environment. *)
Definition Env := jstr -> option jstr.

(** [process.env.X || d]. *)
Definition env_or (env : Env) (x : string) (d : jstr) : jstr :=
  match env (u x) with
  | Some (c :: s) => c :: s
  | _ => d
  end.

Definition env_is_true (env : Env) (x : string) : bool :=
  match env (u x) with
  | Some s => jstr_eqb s (u "true")
  | None => false
  end.

(** [{ KEY: apiKey, MODEL: model, ...(aiEnv ? JSON.parse(aiEnv) : {}) }] *)
Definition env_setup (keyName modelName apiKey model aiEnv : jstr)
    : outcome (list (jstr * json)) :=
  extra <- (if truthy aiEnv then JSON_parse aiEnv else Ok (JObj [])) ;;
  Ok (fold_left assign (spread_entries extra)
        [(keyName, JStr apiKey); (modelName, JStr model)]).

Definition opt_args (b : bool) (xs : list jstr) : list jstr := if b then xs else [].

Definition unsupported_message (cliTool : jstr) : jstr :=
  u "Unsupported CLI tool: " ++ cliTool
  ++ u ". Supported tools: claude-cli, gemini-cli, codex-cli, augment-cli".

Definition getCliToolConfig (env : Env) (cliTool : jstr) : outcome CliToolConfig :=
  let promptFile := env_or env "PROMPT_FILE" [] in
  let allowedTools := env_or env "ALLOWED_TOOLS" [] in
  let disallowedTools := env_or env "DISALLOWED_TOOLS" [] in
  let timeoutMinutes := env_or env "TIMEOUT_MINUTES" (u "30") in
  let maxTurns := env_or env "MAX_TURNS" [] in
  let model := env_or env "MODEL" [] in
  let mcpConfig := env_or env "MCP_CONFIG" [] in
  let apiKey := env_or env "API_KEY" [] in
  let aiEnv := env_or env "AI_ENV" [] in
  let model_or (d : jstr) := if truthy model then model else d in
  if jstr_eqb cliTool (u "claude-cli") then
    setup <- env_setup (u "ANTHROPIC_API_KEY") (u "ANTHROPIC_MODEL") apiKey model aiEnv ;;
    Ok {| command := u "npx";
          installCommand := Some [u "npm"; u "install"; u "-g"; u "@anthropic-ai/claude-code"];
          args := [u "@anthropic-ai/claude-code";
                   u "--prompt-file"; promptFile;
                   u "--allowed-tools"; allowedTools;
                   u "--disallowed-tools"; disallowedTools;
                   u "--timeout-minutes"; timeoutMinutes]
                  ++ opt_args (truthy maxTurns) [u "--max-turns"; maxTurns]
                  ++ opt_args (truthy model) [u "--model"; model]
                  ++ opt_args (truthy mcpConfig) [u "--mcp-config"; mcpConfig]
                  ++ opt_args (env_is_true env "USE_BEDROCK") [u "--use-bedrock"]
                  ++ opt_args (env_is_true env "USE_VERTEX") [u "--use-vertex"];
          envSetup := setup |}
  else if jstr_eqb cliTool (u "gemini-cli") then
    setup <- env_setup (u "GOOGLE_API_KEY") (u "GOOGLE_AI_MODEL") apiKey model aiEnv ;;
    Ok {| command := u "npx";
          installCommand := Some [u "npm"; u "install"; u "-g"; u "@google-ai/generativelanguage"];
          args := [u "@google-ai/generativelanguage";
                   u "--input-file"; promptFile;
                   u "--model"; model_or (u "gemini-pro");
                   u "--max-tokens"; u "2048";
                   u "--timeout"; timeoutMinutes];
          envSetup := setup |}
  else if jstr_eqb cliTool (u "codex-cli") then
    setup <- env_setup (u "OPENAI_API_KEY") (u "OPENAI_MODEL") apiKey model aiEnv ;;
    Ok {| command := u "npx";
          installCommand := Some [u "npm"; u "install"; u "-g"; u "@openai/codex"];
          args := [u "@openai/codex"; u "exec"; u "--full-auto";
                   u "Read and execute: " ++ promptFile];
          envSetup := setup |}
  else if jstr_eqb cliTool (u "augment-cli") then
    setup <- env_setup (u "OPENAI_API_KEY") (u "OPENAI_MODEL") apiKey model aiEnv ;;
    Ok {| command := u "npx";
          installCommand := Some [u "npm"; u "install"; u "-g"; u "openai"];
          args := [u "openai"; u "api"; u "completions.create";
                   u "-m"; model_or (u "gpt-4");
                   u "--prompt"; u "$(cat " ++ promptFile ++ u ")";
                   u "--max-tokens"; u "2048"];
          envSetup := setup |}
  else Throw (unsupported_message cliTool).

(** [spawnSync] result: [status] is [null] when the process was killed
    by a signal or could not be started. *)
Record SpawnResult := { status : option Z }.

Record OutputData := {
  od_type : jstr;
  od_status : jstr;
  od_exit_code : option Z;
  od_command : jstr;
  od_timestamp : jstr
}.

(** [path.join] of a directory and a plain file name. *)
Definition path_join (dir name : jstr) : jstr :=
  match rev dir with
  | c :: _ => if N.eqb c 47 then dir ++ name else dir ++ [47%N] ++ name
  | [] => name
  end.

(** [executeCliTool]: the file system is seen through [fileExists]; the
    result carries the file written, if any, and the returned pair. *)
Definition executeCliTool (env : Env) (fileExists : jstr -> bool)
    (spawnSync : jstr -> list jstr -> list (jstr * json) -> SpawnResult)
    (timestamp : jstr) (config : CliToolConfig)
    : option (jstr * list OutputData) * (jstr * jstr) :=
  let outputDir := env_or env "RUNNER_TEMP" (u "/tmp") in
  let outputFile := path_join outputDir (u "ai-execution-output.json") in
  let result := spawnSync (command config) (args config) (envSetup config) in
  let conclusion :=
    match status result with
    | Some 0%Z => u "success"
    | _ => u "failure"
    end in
  let written :=
    if fileExists outputFile then None
    else Some (outputFile,
               [{| od_type := u "result"; od_status := conclusion;
                   od_exit_code := status result;
                   od_command := command config ++ u " " ++ join (u " ") (args config);
                   od_timestamp := timestamp |}]) in
  (written, (outputFile, conclusion)).

(** ** checkTriggerAction *)

(** The [core.setOutput] calls made, in order. *)
Definition Outputs := list (jstr * jstr).

(** [b.toString()] on a boolean. *)
Definition bool_text (b : bool) : jstr := if b then u "true" else u "false".

Definition provider_text (a : AIProvider) : jstr :=
  match a with claude => u "claude" | augment => u "augment" end.

(** [checkTriggerAction]: the outputs it sets and the flag it returns. *)
Definition checkTriggerAction (context : ParsedGitHubContext)
    : outcome (Outputs * bool) :=
  result <- checkContainsTrigger context ;;
  Ok ([(u "contains_trigger", bool_text (containsTrigger result))]
      ++ match aiProvider result with
         | Some a => [(u "ai_provider", provider_text a)]
         | None => []
         end,
      containsTrigger result).

(** ** Installing and running the CLI tool *)

(** The spawns a step makes: command and arguments. *)
Definition Spawns := list (jstr * list jstr).

(** [installCliTool]: the spawns made and whether it returned or threw.
    The install spawn adds nothing to [process.env] (empty overlay).  On
    an empty [installCommand], [installCommand[0]] is [undefined], which
    [spawnSync] refuses with a TypeError before spawning anything. *)
Definition installCliTool
    (spawnSync : jstr -> list jstr -> list (jstr * json) -> SpawnResult)
    (config : CliToolConfig) : Spawns * outcome unit :=
  match installCommand config with
  | None => ([], Ok tt)
  | Some [] =>
      ([], Throw (u "The file argument must be of type string. Received undefined"))
  | Some (c :: rest) =>
      let installResult := spawnSync c rest [] in
      ([(c, rest)],
       match status installResult with
       | Some 0%Z => Ok tt
       | _ => Throw (u "Failed to install CLI tool: " ++ join (u " ") (c :: rest))
       end)
  end.

(** The failure record [run]'s handler writes. *)
Record ErrorData := { ed_type : jstr; ed_error : jstr; ed_timestamp : jstr }.

Inductive FileData :=
| ResultFile (d : list OutputData)
| ErrorFile (d : list ErrorData).

(** What [run] does: the spawns, the files written, the outputs set, the
    [core.setFailed] message and the [process.exit] code, if any. *)
Record RunResult := {
  rr_spawns : Spawns;
  rr_files : list (jstr * FileData);
  rr_outputs : Outputs;
  rr_failed : option jstr;
  rr_exit : option Z
}.

(** The [catch] block of [run], given the spawns made before the error. *)
Definition run_failure (env : Env) (timestamp : jstr) (spawns : Spawns)
    (errorMessage : jstr) : RunResult :=
  let outputDir := env_or env "RUNNER_TEMP" (u "/tmp") in
  let outputFile := path_join outputDir (u "ai-execution-output.json") in
  {| rr_spawns := spawns;
     rr_files := [(outputFile, ErrorFile [{| ed_type := u "error";
                                             ed_error := errorMessage;
                                             ed_timestamp := timestamp |}])];
     rr_outputs := [(u "execution_file", outputFile); (u "conclusion", u "failure")];
     rr_failed := Some (u "Execute CLI failed: " ++ errorMessage);
     rr_exit := Some 1%Z |}.

Definition run (env : Env) (fileExists : jstr -> bool)
    (spawnSync : jstr -> list jstr -> list (jstr * json) -> SpawnResult)
    (timestamp : jstr) : RunResult :=
  let cliTool := env_or env "CLI_TOOL" (u "claude-cli") in
  let promptFile := or_empty (env (u "PROMPT_FILE")) in
  if negb (truthy promptFile) then
    run_failure env timestamp [] (u "PROMPT_FILE environment variable is required")
  else if negb (fileExists promptFile) then
    run_failure env timestamp [] (u "Prompt file not found: " ++ promptFile)
  else
  match getCliToolConfig env cliTool with
  | Throw e => run_failure env timestamp [] e
  | Ok config =>
      let (spawns, installed) := installCliTool spawnSync config in
      match installed with
      | Throw e => run_failure env timestamp spawns e
      | Ok _ =>
          let '(written, (outputFile, conclusion)) :=
            executeCliTool env fileExists spawnSync timestamp config in
          {| rr_spawns := spawns ++ [(command config, args config)];
             rr_files := match written with
                         | Some (f, d) => [(f, ResultFile d)]
                         | None => []
                         end;
             rr_outputs := [(u "execution_file", outputFile);
                            (u "conclusion", conclusion)];
             rr_failed :=
               if jstr_eqb conclusion (u "success") then None
               else Some (u "CLI tool execution failed with exit code: " ++ conclusion);
             rr_exit := None |}
      end
  end.

(** ** Reading the results *)

(** [obj[x]] on an object kept as an ordered list of entries. *)
Fixpoint lookup_key (x : jstr) (kvs : list (jstr * json)) : option json :=
  match kvs with
  | [] => None
  | (k, v) :: r => if jstr_eqb k x then Some v else lookup_key x r
  end.

(** The output path both [executeCliTool] and [run]'s handler use. *)
Definition output_file (env : Env) : jstr :=
  path_join (env_or env "RUNNER_TEMP" (u "/tmp")) (u "ai-execution-output.json").

(** Reading a pattern back: a backslash quotes the next code unit. *)
Fixpoint unescape (s : jstr) : jstr :=
  match s with
  | [] => []
  | c :: r =>
      if N.eqb c 92 then
        match r with
        | d :: r' => d :: unescape r'
        | [] => [c]
        end
      else c :: unescape r
  end.

(** * Proofs *)

Lemma jstr_eqb_spec a b : jstr_eqb a b = true <-> a = b.
Proof.
  revert b; induction a as [|x a IH]; intros [|y b]; simpl;
    try (split; congruence).
  rewrite andb_true_iff, N.eqb_eq, IH. split; [intros [-> ->] | intros [=]]; auto.
Qed.

Example detect_ex1 : detectAIProvider (u "Hey @claude, can you help?") = Some claude.
Proof. reflexivity. Qed.

Example detect_ex2 : detectAIProvider (u "@claude and @augment help") = Some augment.
Proof. reflexivity. Qed.

Example detect_ex3 : detectAIProvider (u "claudette helped") = None.
Proof. reflexivity. Qed.

Example detect_ex4 : detectAIProvider (u "email@claude.com") = None.
Proof. reflexivity. Qed.

Example escape_ex : escapeRegExp (u "hello.*world") = u "hello\.\*world".
Proof. reflexivity. Qed.

Example trigger_ex1 : checkContainsTrigger sample_context = Ok (triggered claude).
Proof. reflexivity. Qed.

Example trigger_ex2 :
  checkContainsTrigger
    {| eventName := u "issue_comment"; eventAction := u "created";
       repository := {| owner := u "acme"; repo := u "app" |};
       actor := u "octocat"; inputs := sample_inputs;
       payload := {| assignee_login := None; issue_body := None; issue_title := None;
                     pull_request_body := None; pull_request_title := None;
                     review_body := None;
                     comment_body := u "@claude and @augment please help" |} |}
  = Ok (triggered augment).
Proof. reflexivity. Qed.

Example json_ex1 :
  JSON_parse (uq "{'A': 'x', 'B': [1, -2.5e3, true, null], 'A': 'y'}")
  = Ok (JObj [(u "A", JStr (u "y")); (u "B", JArr [JNum (u "1"); JNum (u "-2.5e3");
                                               JBool true; JNull])]).
Proof. reflexivity. Qed.


(** ** Parsing escaped text *)

Lemma syntax_char_not_s c : is_syntax_char c = true -> N.eqb c 115 = false.
Proof.
  intros H; destruct (N.eqb c 115) eqn:E; [|reflexivity].
  apply N.eqb_eq in E; subst; discriminate H.
Qed.

Lemma non_syntax_char c :
  is_syntax_char c = false ->
  N.eqb c 40 = false /\ N.eqb c 41 = false /\ N.eqb c 124 = false /\
  N.eqb c 94 = false /\ N.eqb c 36 = false /\ N.eqb c 46 = false /\
  N.eqb c 91 = false /\ N.eqb c 92 = false /\
  existsb (N.eqb c) (u "*+?{") = false.
Proof.
  intros H.
  repeat split;
    match goal with
    | |- ?x = false => destruct x eqn:E; [exfalso|reflexivity]
    end;
    try (apply N.eqb_eq in E; subst; discriminate H).
  apply existsb_exists in E; destruct E as [d [Hin E]].
  apply N.eqb_eq in E; subst. simpl in Hin.
  repeat destruct Hin as [<-|Hin]; try discriminate H; contradiction.
Qed.

Lemma pparse_escape s st top rest :
  pparse None st top (escapeRegExp s ++ rest)
  = pparse None st (fold_left (fun f c => push f (RChar c)) s top) rest.
Proof.
  revert top; induction s as [|c s IH]; intros top; [reflexivity|].
  cbn [escapeRegExp fold_left].
  destruct (is_syntax_char c) eqn:Hc.
  - cbn [app pparse]. rewrite (syntax_char_not_s c Hc), Hc. apply IH.
  - destruct (non_syntax_char c Hc) as (H1 & H2 & H3 & H4 & H5 & H6 & H7 & H8 & H9).
    cbn [app pparse]. rewrite H1, H2, H3, H4, H5, H6, H7, H8, H9. apply IH.
Qed.

Lemma augmentRegex_word : augmentRegex = word_re (u "@augment").
Proof. reflexivity. Qed.

Lemma claudeRegex_word : claudeRegex = word_re (u "@claude").
Proof. reflexivity. Qed.

Lemma fold_left_push s top :
  fold_left (fun f c => push f (RChar c)) s top
  = {| f_alts := f_alts top; f_seq := rev (map RChar s) ++ f_seq top |}.
Proof.
  revert top; induction s as [|c s IH]; intros top.
  - destruct top; reflexivity.
  - simpl. rewrite IH. simpl. rewrite <- app_assoc. reflexivity.
Qed.

Lemma fold_left_rev_cat l acc :
  fold_left (fun acc r => RCat r acc) (rev l) acc = fold_right RCat acc l.
Proof.
  revert acc; induction l as [|r l IH]; intros acc; [reflexivity|].
  simpl. rewrite fold_left_app. simpl. rewrite IH. reflexivity.
Qed.

Lemma newRegExp_escape s :
  newRegExp (escapeRegExp s) = Ok (fold_right RCat REmpty (map RChar s)).
Proof.
  unfold newRegExp. rewrite <- (app_nil_r (escapeRegExp s)), pparse_escape.
  rewrite fold_left_push. simpl. unfold close, cat_of. simpl.
  rewrite app_nil_r, fold_left_rev_cat. reflexivity.
Qed.

Lemma newRegExp_trigger phrase :
  newRegExp (trigger_pattern phrase) = Ok (word_re phrase).
Proof.
  unfold newRegExp, trigger_pattern.
  change (u "(^|\s)") with [40; 94; 124; 92; 115; 41]%N.
  cbn [app pparse N.eqb Pos.eqb is_syntax_char]. simpl pparse.
  rewrite pparse_escape, fold_left_push. simpl.
  unfold close, cat_of, word_re. simpl.
  rewrite fold_left_app. simpl. rewrite fold_left_rev_cat. simpl.
  rewrite fold_right_app. reflexivity.
Qed.

(** ** Matching *)

Lemma mt_lits tok r t i k :
  mt (fold_right RCat r (map RChar tok)) t i k
  = lits_at tok t i && mt r t (i + length tok) k.
Proof.
  revert i; induction tok as [|c tok IH]; intros i; simpl.
  - rewrite Nat.add_0_r. reflexivity.
  - destruct (nth_error t i); [|reflexivity].
    rewrite IH, andb_assoc. replace (S i + length tok) with (i + S (length tok)) by lia. reflexivity.
Qed.

Lemma mt_right_group t m :
  mt (RCat (RGroup right_group) REmpty) t m (fun _ => true) = right_ok t m.
Proof.
  unfold right_ok; simpl.
  destruct (nth_error t m) eqn:E.
  - assert (m < length t) by (apply nth_error_Some; congruence).
    replace (Nat.eqb m (length t)) with false by (symmetry; apply Nat.eqb_neq; lia).
    rewrite !andb_true_r, orb_false_r. reflexivity.
  - rewrite andb_true_r. reflexivity.
Qed.

Lemma mt_word_re tok t p :
  mt (word_re tok) t p (fun _ => true)
  = (Nat.eqb p 0 && (lits_at tok t p && right_ok t (p + length tok)))
    || match nth_error t p with
       | Some d => is_space d && (lits_at tok t (S p) && right_ok t (S p + length tok))
       | None => false
       end.
Proof.
  unfold word_re. rewrite fold_right_app. cbn [fold_right app].
  cbn [mt]. unfold left_group. cbn [mt].
  rewrite !fold_right_app. cbn [fold_right]. rewrite !mt_lits, !mt_right_group. reflexivity.
Qed.

Lemma test_spec r t :
  test r t = true <-> exists i, i <= length t /\ mt r t i (fun _ => true) = true.
Proof.
  unfold test. rewrite existsb_exists. split.
  - intros [i [Hin H]]. apply in_seq in Hin. exists i; split; [lia|exact H].
  - intros [i [Hle H]]. exists i; split; [apply in_seq; lia|exact H].
Qed.

(** The word-boundary pattern matches exactly the standalone occurrences. *)
Lemma test_word_re tok t :
  test (word_re tok) t = true <-> standalone tok t.
Proof.
  rewrite test_spec. unfold standalone, word_at. split.
  - intros [p [Hle H]]. rewrite mt_word_re in H.
    apply orb_true_iff in H as [H|H].
    + apply andb_true_iff in H as [H0 H]. apply Nat.eqb_eq in H0; subst.
      exists 0; split; [lia|]. exact H.
    + destruct (nth_error t p) as [d|] eqn:E; [|discriminate].
      apply andb_true_iff in H as [Hs H].
      assert (p < length t) by (apply nth_error_Some; congruence).
      exists (S p); split; [lia|]. simpl left_ok. rewrite E, Hs. exact H.
  - intros [i [Hle H]]. destruct i as [|p].
    + exists 0; split; [lia|]. rewrite mt_word_re. simpl in H |- *. rewrite H. reflexivity.
    + simpl left_ok in H.
      destruct (nth_error t p) as [d|] eqn:E; [|discriminate].
      assert (p < length t) by (apply nth_error_Some; congruence).
      exists p; split; [lia|]. rewrite mt_word_re, E.
      apply andb_true_iff in H as [H Hr]. apply andb_true_iff in H as [Hs Hl].
      rewrite Hs, Hl, Hr, orb_true_r. reflexivity.
Qed.

Lemma skipn_nth (t : jstr) p :
  skipn p t = match nth_error t p with Some d => d :: skipn (S p) t | None => [] end.
Proof.
  revert p; induction t as [|x t IH]; intros [|p]; simpl; auto.
Qed.

Lemma lits_at_skipn tok t p :
  lits_at tok t p = true <-> exists post, skipn p t = tok ++ post.
Proof.
  revert p; induction tok as [|c tok IH]; intros p; simpl.
  - split; [intros _; eexists; reflexivity | auto].
  - rewrite (skipn_nth t p). destruct (nth_error t p) as [d|].
    + rewrite andb_true_iff, N.eqb_eq, IH. split.
      * intros [-> [post Hp]]. exists post. rewrite Hp. reflexivity.
      * intros [post Hp]. injection Hp as -> Hp. split; [reflexivity|]. eauto.
    + split; [discriminate|]. intros [post Hp]. discriminate.
Qed.

Lemma test_lits s t :
  test (fold_right RCat REmpty (map RChar s)) t = true <-> substring s t.
Proof.
  rewrite test_spec. unfold substring. split.
  - intros [p [Hle H]]. rewrite mt_lits, andb_true_r, lits_at_skipn in H.
    destruct H as [post H]. exists (firstn p t), post.
    rewrite <- H. symmetry. apply firstn_skipn.
  - intros [pre [post ->]]. exists (length pre). split.
    + rewrite !length_app. lia.
    + rewrite mt_lits, andb_true_r, lits_at_skipn. exists post.
      rewrite skipn_app, skipn_all, Nat.sub_diag. reflexivity.
Qed.

Lemma includes_In xs x : includes xs x = true <-> In x xs.
Proof.
  unfold includes. rewrite existsb_exists. split.
  - intros [y [Hy E]]. apply jstr_eqb_spec in E. subst. exact Hy.
  - intros H. exists x. split; [exact H | apply jstr_eqb_spec; reflexivity].
Qed.

(** ** Trigger detection: blocks never throw and always carry a provider
    when they return. *)

Definition trigger_ok (o : outcome TriggerResult) : Prop :=
  exists r, o = Ok r /\ (containsTrigger r = true <-> aiProvider r <> None).

Definition block_ok (m : outcome (option TriggerResult)) : Prop :=
  m = Ok None \/ exists a, m = Ok (Some (triggered a)).

Lemma body_title_block_ok phrase body title :
  block_ok (body_title_block phrase body title).
Proof.
  unfold block_ok, body_title_block.
  destruct (detectAIProvider body) as [a|]; [right; eauto|].
  destruct (detectAIProvider title) as [a|]; [right; eauto|].
  rewrite newRegExp_trigger. simpl.
  destruct (test _ body); [right; eauto|].
  destruct (test _ title); [right; eauto | left; reflexivity].
Qed.

Lemma body_block_ok phrase body : block_ok (body_block phrase body).
Proof.
  unfold block_ok, body_block.
  destruct (detectAIProvider body) as [a|]; [right; eauto|].
  rewrite newRegExp_trigger. simpl.
  destruct (test _ body); [right; eauto | left; reflexivity].
Qed.

Lemma no_block_ok : block_ok (Ok None).
Proof. left; reflexivity. Qed.

Lemma fall_through_ok m k :
  block_ok m -> trigger_ok k -> trigger_ok (fall_through m k).
Proof.
  intros [-> | [a ->]] Hk; [exact Hk|].
  exists (triggered a). split; [reflexivity|]. simpl. split; congruence.
Qed.

(** ** Claims *)

Lemma detectAIProvider_cases (t : jstr) :
  (detectAIProvider t = Some augment <-> standalone (u "@augment") t) /\
  (detectAIProvider t = Some claude <->
     ~ standalone (u "@augment") t /\ standalone (u "@claude") t) /\
  (detectAIProvider t = None <->
     ~ standalone (u "@augment") t /\ ~ standalone (u "@claude") t).
Proof.
  unfold detectAIProvider. rewrite augmentRegex_word, claudeRegex_word.
  pose proof (test_word_re (u "@augment") t) as HA.
  pose proof (test_word_re (u "@claude") t) as HC.
  rewrite <- HA, <- HC.
  destruct (test (word_re (u "@augment")) t), (test (word_re (u "@claude")) t);
    intuition congruence.
Qed.

(** C1 (amended): [detectAIProvider] returns ["augment"] exactly when the
    text has [@augment] as a standalone token (preceded by the start or a
    whitespace code unit, followed by the end, a whitespace code unit or
    one of [. , ! ? ; :]); ["claude"] exactly when it has [@claude] as
    such a token and no standalone [@augment]; and [null] otherwise, so in
    particular when the tokens only occur inside larger words. *)
Theorem detectAIProvider_spec (t : jstr) :
  (detectAIProvider t = Some augment <-> standalone (u "@augment") t) /\
  (detectAIProvider t = Some claude <->
     ~ standalone (u "@augment") t /\ standalone (u "@claude") t) /\
  (detectAIProvider t = None <->
     ~ standalone (u "@augment") t /\ ~ standalone (u "@claude") t).
Proof. exact (detectAIProvider_cases t). Qed.

(** C1 counterexample: ["@claude @augment"] has [@claude] as a standalone
    token, yet [detectAIProvider] returns ["augment"], not ["claude"]. *)
Lemma detectAIProvider_claude_overridden :
  standalone (u "@claude") (u "@claude @augment") /\
  detectAIProvider (u "@claude @augment") = Some augment.
Proof.
  split; [exists 0; split; [simpl; lia | reflexivity] | reflexivity].
Qed.

(** C2: when both [@claude] and [@augment] occur as mention tokens,
    wherever they are, [detectAIProvider] returns ["augment"]. *)
Theorem detectAIProvider_augment_priority (t : jstr) :
  standalone (u "@augment") t -> standalone (u "@claude") t ->
  detectAIProvider t = Some augment.
Proof.
  intros HA _. apply (proj1 (detectAIProvider_cases t)). exact HA.
Qed.

Lemma detectAIProvider_augment_priority_witness :
  standalone (u "@augment") (u "@claude and @augment please help") /\
  standalone (u "@claude") (u "@claude and @augment please help") /\
  detectAIProvider (u "@claude and @augment please help") = Some augment.
Proof.
  assert (HA : standalone (u "@augment") (u "@claude and @augment please help"))
    by (exists 12; split; [simpl; lia | reflexivity]).
  assert (HC : standalone (u "@claude") (u "@claude and @augment please help"))
    by (exists 0; split; [simpl; lia | reflexivity]).
  split; [exact HA | split; [exact HC |]].
  exact (detectAIProvider_augment_priority _ HA HC).
Defined.

(** C5: a non-empty direct prompt makes [checkContainsTrigger] return
    [{containsTrigger: true, aiProvider: "claude"}] whatever the rest of
    the context is. *)
Theorem checkContainsTrigger_direct_prompt (context : ParsedGitHubContext) :
  directPrompt (inputs context) <> [] ->
  checkContainsTrigger context
  = Ok {| containsTrigger := true; aiProvider := Some claude |}.
Proof.
  intros H. unfold checkContainsTrigger.
  destruct (directPrompt (inputs context)); [contradiction | reflexivity].
Qed.

Lemma checkContainsTrigger_direct_prompt_witness :
  directPrompt (inputs {| eventName := u "push"; eventAction := u "created";
     repository := {| owner := u "acme"; repo := u "app" |};
     actor := u "octocat";
     inputs := {| triggerPhrase := u "/claude"; assigneeTrigger := [];
                  directPrompt := u "help me with this"; allowedBotNames := [] |};
     payload := sample_payload |}) <> [] /\
  checkContainsTrigger {| eventName := u "push"; eventAction := u "created";
     repository := {| owner := u "acme"; repo := u "app" |};
     actor := u "octocat";
     inputs := {| triggerPhrase := u "/claude"; assigneeTrigger := [];
                  directPrompt := u "help me with this"; allowedBotNames := [] |};
     payload := sample_payload |}
  = Ok {| containsTrigger := true; aiProvider := Some claude |}.
Proof.
  assert (H : directPrompt (inputs {| eventName := u "push"; eventAction := u "created";
     repository := {| owner := u "acme"; repo := u "app" |};
     actor := u "octocat";
     inputs := {| triggerPhrase := u "/claude"; assigneeTrigger := [];
                  directPrompt := u "help me with this"; allowedBotNames := [] |};
     payload := sample_payload |}) <> []) by (simpl; discriminate).
  split; [exact H | exact (checkContainsTrigger_direct_prompt _ H)].
Defined.

(** C6: the regular expression built from [escapeRegExp s] parses, and
    it matches a text exactly when the text contains [s] literally. *)
Theorem escapeRegExp_literal (s t : jstr) :
  exists r, newRegExp (escapeRegExp s) = Ok r /\
            (test r t = true <-> substring s t).
Proof.
  eexists. split; [apply newRegExp_escape | apply test_lits].
Qed.

(** C9: [checkContainsTrigger] always returns (never throws), and its
    result has a provider exactly when [containsTrigger] is true. *)
Theorem checkContainsTrigger_provider_iff (context : ParsedGitHubContext) :
  exists r, checkContainsTrigger context = Ok r /\
            (containsTrigger r = true <-> aiProvider r <> None).
Proof.
  unfold checkContainsTrigger.
  destruct (truthy (directPrompt (inputs context))).
  { eexists. split; [reflexivity|]. simpl. split; congruence. }
  repeat (apply fall_through_ok;
          [ repeat match goal with
                   | |- context [if ?b then _ else _] => destruct b
                   end;
            auto using body_title_block_ok, body_block_ok, no_block_ok;
            right; eexists; reflexivity
          | ]).
  eexists. split; [reflexivity|]. simpl. split; [discriminate | tauto].
Qed.

(** C10: with an empty trigger phrase the fallback pattern matches the
    empty text, so an opened issue with no direct prompt, an empty body
    and no provider mention in its title triggers with ["claude"]. *)
Theorem checkContainsTrigger_empty_phrase (context : ParsedGitHubContext) :
  eventName context = u "issues" ->
  eventAction context = u "opened" ->
  directPrompt (inputs context) = [] ->
  triggerPhrase (inputs context) = [] ->
  or_empty (issue_body (payload context)) = [] ->
  detectAIProvider (or_empty (issue_title (payload context))) = None ->
  (exists r, newRegExp (trigger_pattern (triggerPhrase (inputs context))) = Ok r
             /\ test r [] = true) /\
  checkContainsTrigger context
  = Ok {| containsTrigger := true; aiProvider := Some claude |}.
Proof.
  intros Hn Ha Hd Hp Hb Ht. split.
  { rewrite Hp. eexists. split; [reflexivity | reflexivity]. }
  unfold checkContainsTrigger, isIssuesAssignedEvent, isIssuesEvent.
  rewrite Hn, Ha, Hd. cbn [truthy jstr_eqb u map list_ascii_of_string andb].
  simpl fall_through at 1.
  replace (jstr_eqb (u "issues") (u "issues") && jstr_eqb (u "opened") (u "opened"))
    with true by reflexivity.
  unfold body_title_block. rewrite Hb, Ht, Hp. reflexivity.
Qed.

Definition opened_issue_empty_phrase : ParsedGitHubContext :=
  {| eventName := u "issues"; eventAction := u "opened";
     repository := {| owner := u "acme"; repo := u "app" |};
     actor := u "octocat";
     inputs := {| triggerPhrase := []; assigneeTrigger := []; directPrompt := [];
                  allowedBotNames := [] |};
     payload := {| assignee_login := None; issue_body := None;
                   issue_title := Some (u "Crash on startup");
                   pull_request_body := None; pull_request_title := None;
                   review_body := None; comment_body := [] |} |}.

Lemma checkContainsTrigger_empty_phrase_witness :
  eventName opened_issue_empty_phrase = u "issues" /\
  eventAction opened_issue_empty_phrase = u "opened" /\
  directPrompt (inputs opened_issue_empty_phrase) = [] /\
  triggerPhrase (inputs opened_issue_empty_phrase) = [] /\
  or_empty (issue_body (payload opened_issue_empty_phrase)) = [] /\
  detectAIProvider (or_empty (issue_title (payload opened_issue_empty_phrase))) = None /\
  checkContainsTrigger opened_issue_empty_phrase
  = Ok {| containsTrigger := true; aiProvider := Some claude |}.
Proof.
  assert (H1 : eventName opened_issue_empty_phrase = u "issues") by reflexivity.
  assert (H2 : eventAction opened_issue_empty_phrase = u "opened") by reflexivity.
  assert (H3 : directPrompt (inputs opened_issue_empty_phrase) = []) by reflexivity.
  assert (H4 : triggerPhrase (inputs opened_issue_empty_phrase) = []) by reflexivity.
  assert (H5 : or_empty (issue_body (payload opened_issue_empty_phrase)) = [])
    by reflexivity.
  assert (H6 : detectAIProvider (or_empty (issue_title (payload opened_issue_empty_phrase)))
               = None) by reflexivity.
  refine (conj H1 (conj H2 (conj H3 (conj H4 (conj H5 (conj H6 _)))))).
  exact (proj2 (checkContainsTrigger_empty_phrase _ H1 H2 H3 H4 H5 H6)).
Defined.

(** C3: once the user lookup answers with [actorType], [checkAllowedActor]
    succeeds for a ["User"], succeeds for a ["Bot"] whose login is in
    [allowedBotNames] (exact string equality), and in every other case,
    an ["Organization"] among them, throws a message that names the
    actor, the type and, when it is non-empty, the allowed-bot list. *)
Theorem checkAllowedActor_spec (octokit : Octokit) (ctx : ParsedGitHubContext)
    (actorType : jstr) (tr : list ApiCall) :
  users_getByUsername octokit (actor ctx) = Ok actorType ->
  snd (checkAllowedActor octokit ctx tr) = tr ++ [GetByUsername (actor ctx)] /\
  (actorType = u "User" -> fst (checkAllowedActor octokit ctx tr) = Ok tt) /\
  (actorType = u "Bot" -> In (actor ctx) (allowedBotNames (inputs ctx)) ->
     fst (checkAllowedActor octokit ctx tr) = Ok tt) /\
  (actorType <> u "User" ->
   ~ (actorType = u "Bot" /\ In (actor ctx) (allowedBotNames (inputs ctx))) ->
   exists msg, fst (checkAllowedActor octokit ctx tr) = Throw msg /\
     substring (actor ctx) msg /\ substring actorType msg /\
     (allowedBotNames (inputs ctx) <> [] ->
        substring (join (u ", ") (allowedBotNames (inputs ctx))) msg)).
Proof.
  intros H. unfold checkAllowedActor, bindM, getByUsername. rewrite H.
  cbn beta iota.
  destruct (jstr_eqb actorType (u "User")) eqn:EU.
  { apply jstr_eqb_spec in EU. subst.
    repeat split; intros; try reflexivity. contradiction. }
  destruct (jstr_eqb actorType (u "Bot") &&
            (Nat.ltb 0 (length (allowedBotNames (inputs ctx))) &&
             includes (allowedBotNames (inputs ctx)) (actor ctx))) eqn:EB.
  { repeat split; intros; try reflexivity. exfalso.
    apply andb_true_iff in EB as [EB1 EB2]. apply andb_true_iff in EB2 as [_ EB2].
    apply jstr_eqb_spec in EB1. apply includes_In in EB2. tauto. }
  split; [reflexivity|]. split.
  { intros ->. discriminate EU. }
  split.
  { intros -> Hin. exfalso.
    apply includes_In in Hin. rewrite Hin in EB.
    destruct (allowedBotNames (inputs ctx)); [discriminate Hin | simpl in EB; discriminate EB]. }
  intros _ _. eexists. split; [reflexivity|]. unfold unauthorized_message.
  split; [|split].
  - exists (u "Workflow initiated by unauthorized actor: "). eexists. reflexivity.
  - exists (u "Workflow initiated by unauthorized actor: " ++ actor ctx ++ u " (type: ").
    eexists. rewrite <- !app_assoc. reflexivity.
  - intros Hne. destruct (allowedBotNames (inputs ctx)) as [|n ns]; [contradiction|].
    exists (u "Workflow initiated by unauthorized actor: " ++ actor ctx ++ u " (type: "
            ++ actorType ++ u "). " ++ u "Only human users and whitelisted bots are allowed."
            ++ u " Allowed bots: "), [].
    cbn [length Nat.ltb Nat.leb]. rewrite app_nil_r, <- !app_assoc. reflexivity.
Qed.

Definition bot_octokit : Octokit :=
  {| users_getByUsername := fun _ => Ok (u "Bot");
     repos_getCollaboratorPermissionLevel := fun _ _ _ => Ok (u "read") |}.

Definition malicious_bot_context : ParsedGitHubContext :=
  {| eventName := u "issue_comment"; eventAction := u "created";
     repository := {| owner := u "acme"; repo := u "app" |};
     actor := u "malicious-bot";
     inputs := {| triggerPhrase := u "@claude"; assigneeTrigger := []; directPrompt := [];
                  allowedBotNames := [u "dependabot[bot]"] |};
     payload := sample_payload |}.

Lemma checkAllowedActor_spec_witness :
  users_getByUsername bot_octokit (actor malicious_bot_context) = Ok (u "Bot") /\
  fst (checkAllowedActor bot_octokit malicious_bot_context [])
  = Throw (u "Workflow initiated by unauthorized actor: malicious-bot (type: Bot). Only human users and whitelisted bots are allowed. Allowed bots: dependabot[bot]") /\
  (exists msg, fst (checkAllowedActor bot_octokit malicious_bot_context []) = Throw msg /\
     substring (actor malicious_bot_context) msg /\ substring (u "Bot") msg /\
     (allowedBotNames (inputs malicious_bot_context) <> [] ->
        substring (join (u ", ") (allowedBotNames (inputs malicious_bot_context))) msg)).
Proof.
  assert (H : users_getByUsername bot_octokit (actor malicious_bot_context) = Ok (u "Bot"))
    by reflexivity.
  refine (conj H (conj eq_refl _)).
  destruct (checkAllowedActor_spec bot_octokit malicious_bot_context (u "Bot") [] H)
    as (_ & _ & _ & Hfail).
  apply Hfail.
  - discriminate.
  - intros [_ Hin]. simpl in Hin. destruct Hin as [Hin|[]]. discriminate Hin.
Defined.

(** C4: an actor listed in [allowedBotNames] gets [true] with no API call;
    otherwise the collaborator-permission endpoint is called once, the
    answer is [true] exactly for ["admin"] and ["write"], and a failing
    call is rethrown as an error rather than turned into [false]. *)
Theorem checkWritePermissions_spec (octokit : Octokit) (ctx : ParsedGitHubContext)
    (tr : list ApiCall) :
  (In (actor ctx) (allowedBotNames (inputs ctx)) ->
   checkWritePermissions octokit ctx tr = (Ok true, tr)) /\
  (~ In (actor ctx) (allowedBotNames (inputs ctx)) -> forall permission,
   repos_getCollaboratorPermissionLevel octokit
     (owner (repository ctx)) (repo (repository ctx)) (actor ctx) = Ok permission ->
   exists b, checkWritePermissions octokit ctx tr
     = (Ok b, tr ++ [GetCollaboratorPermissionLevel (owner (repository ctx))
                      (repo (repository ctx)) (actor ctx)]) /\
     (b = true <-> permission = u "admin" \/ permission = u "write")) /\
  (~ In (actor ctx) (allowedBotNames (inputs ctx)) -> forall error,
   repos_getCollaboratorPermissionLevel octokit
     (owner (repository ctx)) (repo (repository ctx)) (actor ctx) = Throw error ->
   checkWritePermissions octokit ctx tr
   = (Throw (u "Failed to check permissions for " ++ actor ctx ++ u ": " ++ error),
      tr ++ [GetCollaboratorPermissionLevel (owner (repository ctx))
              (repo (repository ctx)) (actor ctx)])).
Proof.
  unfold checkWritePermissions, catchM, bindM, getCollaboratorPermissionLevel, ret, throw.
  destruct (includes (allowedBotNames (inputs ctx)) (actor ctx)) eqn:E.
  - apply includes_In in E. split; [reflexivity|]. split; intros Hn; contradiction.
  - split; [intros Hin; apply includes_In in Hin; congruence|]. split.
    + intros _ p Hp. rewrite Hp.
      exists (jstr_eqb p (u "admin") || jstr_eqb p (u "write")).
      split; [destruct (jstr_eqb p (u "admin") || jstr_eqb p (u "write")); reflexivity|].
      rewrite orb_true_iff, !jstr_eqb_spec. tauto.
    + intros _ e He. rewrite He. reflexivity.
Qed.

Definition admin_octokit : Octokit :=
  {| users_getByUsername := fun _ => Ok (u "User");
     repos_getCollaboratorPermissionLevel := fun _ _ _ => Ok (u "admin") |}.

Lemma checkWritePermissions_spec_witness :
  ~ In (actor sample_context) (allowedBotNames (inputs sample_context)) /\
  repos_getCollaboratorPermissionLevel admin_octokit
    (owner (repository sample_context)) (repo (repository sample_context))
    (actor sample_context) = Ok (u "admin") /\
  exists b, checkWritePermissions admin_octokit sample_context []
    = (Ok b, [GetCollaboratorPermissionLevel (u "acme") (u "app") (u "octocat")]) /\
    (b = true <-> u "admin" = u "admin" \/ u "admin" = u "write").
Proof.
  assert (Hn : ~ In (actor sample_context) (allowedBotNames (inputs sample_context)))
    by (simpl; tauto).
  assert (Hp : repos_getCollaboratorPermissionLevel admin_octokit
    (owner (repository sample_context)) (repo (repository sample_context))
    (actor sample_context) = Ok (u "admin")) by reflexivity.
  refine (conj Hn (conj Hp _)).
  exact (proj1 (proj2 (checkWritePermissions_spec admin_octokit sample_context []))
           Hn (u "admin") Hp).
Defined.

(** ** CLI dispatch *)

Definition supported_tools : list jstr :=
  [u "claude-cli"; u "gemini-cli"; u "codex-cli"; u "augment-cli"].

Lemma env_setup_ok k m a md aiEnv :
  aiEnv = [] \/ (exists v, JSON_parse aiEnv = Ok v) ->
  exists l, env_setup k m a md aiEnv = Ok l.
Proof.
  intros [-> | [v Hv]]; unfold env_setup.
  - eexists; reflexivity.
  - destruct aiEnv as [|c s]; simpl; [eexists; reflexivity|].
    rewrite Hv. eexists; reflexivity.
Qed.

Lemma env_setup_throw k m a md aiEnv e :
  aiEnv <> [] -> JSON_parse aiEnv = Throw e -> env_setup k m a md aiEnv = Throw e.
Proof.
  intros Hne He. unfold env_setup.
  destruct aiEnv as [|c s]; [contradiction|]. simpl. rewrite He. reflexivity.
Qed.

Lemma bind_ok {A B} (m : outcome A) (f : A -> B) :
  (exists a, m = Ok a) -> exists b, bind m (fun a => Ok (f a)) = Ok b.
Proof. intros [a ->]. eexists; reflexivity. Qed.

Lemma unsupported_mentions cliTool (pre x post : string) :
  u ". Supported tools: claude-cli, gemini-cli, codex-cli, augment-cli"
  = u pre ++ u x ++ u post ->
  substring (u x) (unsupported_message cliTool).
Proof.
  intros H. exists (u "Unsupported CLI tool: " ++ cliTool ++ u pre), (u post).
  unfold unsupported_message. rewrite H, <- !app_assoc. reflexivity.
Qed.

Ltac supported_branch :=
  split;
  [ intros Hn; exfalso; apply Hn; simpl; tauto
  | split;
    [ intros _ Hai; apply bind_ok, env_setup_ok, Hai
    | intros _ e He Hne; rewrite (env_setup_throw _ _ _ _ _ e Hne He); reflexivity ] ].

(** C7 (amended): an identifier outside the four supported tools throws
    ["Unsupported CLI tool: <id>. Supported tools: claude-cli, gemini-cli,
    codex-cli, augment-cli"]; a supported identifier yields a
    configuration when [AI_ENV] is empty or unset or holds valid JSON, and
    throws the [JSON.parse] error when [AI_ENV] holds malformed JSON. *)
Theorem getCliToolConfig_spec (env : Env) (cliTool : jstr) :
  (~ In cliTool supported_tools ->
     getCliToolConfig env cliTool = Throw (unsupported_message cliTool) /\
     substring cliTool (unsupported_message cliTool) /\
     Forall (fun t => substring t (unsupported_message cliTool)) supported_tools) /\
  (In cliTool supported_tools ->
     env_or env "AI_ENV" [] = [] \/ (exists v, JSON_parse (env_or env "AI_ENV" []) = Ok v) ->
     exists config, getCliToolConfig env cliTool = Ok config) /\
  (In cliTool supported_tools -> forall e,
     JSON_parse (env_or env "AI_ENV" []) = Throw e ->
     env_or env "AI_ENV" [] <> [] ->
     getCliToolConfig env cliTool = Throw e).
Proof.
  unfold getCliToolConfig. cbv zeta.
  destruct (jstr_eqb cliTool (u "claude-cli")) eqn:E1.
  { apply jstr_eqb_spec in E1; subst. supported_branch. }
  destruct (jstr_eqb cliTool (u "gemini-cli")) eqn:E2.
  { apply jstr_eqb_spec in E2; subst. supported_branch. }
  destruct (jstr_eqb cliTool (u "codex-cli")) eqn:E3.
  { apply jstr_eqb_spec in E3; subst. supported_branch. }
  destruct (jstr_eqb cliTool (u "augment-cli")) eqn:E4.
  { apply jstr_eqb_spec in E4; subst. supported_branch. }
  assert (Hout : ~ In cliTool supported_tools).
  { simpl. intros [<-|[<-|[<-|[<-|[]]]]];
      [discriminate E1 | discriminate E2 | discriminate E3 | discriminate E4]. }
  split; [|split; intros Hin; contradiction].
  intros _. split; [reflexivity|]. split.
  - exists (u "Unsupported CLI tool: "), (u ". Supported tools: claude-cli, gemini-cli, codex-cli, augment-cli").
    reflexivity.
  - repeat constructor.
    + apply (unsupported_mentions cliTool ". Supported tools: " _
               ", gemini-cli, codex-cli, augment-cli"); reflexivity.
    + apply (unsupported_mentions cliTool ". Supported tools: claude-cli, " _
               ", codex-cli, augment-cli"); reflexivity.
    + apply (unsupported_mentions cliTool ". Supported tools: claude-cli, gemini-cli, " _
               ", augment-cli"); reflexivity.
    + apply (unsupported_mentions cliTool
               ". Supported tools: claude-cli, gemini-cli, codex-cli, " _ ""); reflexivity.
Qed.

Definition empty_env : Env := fun _ => None.

Lemma getCliToolConfig_spec_witness :
  In (u "claude-cli") supported_tools /\
  (env_or empty_env "AI_ENV" [] = [] \/
   (exists v, JSON_parse (env_or empty_env "AI_ENV" []) = Ok v)) /\
  exists config, getCliToolConfig empty_env (u "claude-cli") = Ok config.
Proof.
  assert (Hin : In (u "claude-cli") supported_tools) by (simpl; tauto).
  assert (Hai : env_or empty_env "AI_ENV" [] = [] \/
                (exists v, JSON_parse (env_or empty_env "AI_ENV" []) = Ok v))
    by (left; reflexivity).
  refine (conj Hin (conj Hai _)).
  exact (proj1 (proj2 (getCliToolConfig_spec empty_env (u "claude-cli"))) Hin Hai).
Defined.

(** An environment whose [AI_ENV] is the malformed JSON text ["{"]. *)
Definition malformed_ai_env : Env :=
  fun x => if jstr_eqb x (u "AI_ENV") then Some (u "{") else None.

(** C7 counterexample: ["claude-cli"] is supported, yet with [AI_ENV="{"]
    [getCliToolConfig] throws the [JSON.parse] error. *)
Lemma getCliToolConfig_malformed_ai_env :
  In (u "claude-cli") supported_tools /\
  getCliToolConfig malformed_ai_env (u "claude-cli")
  = Throw (u "SyntaxError: Unexpected token in JSON").
Proof. split; [simpl; tauto | reflexivity]. Qed.

(** C8: the conclusion of [executeCliTool] is ["success"] exactly when
    the exit status is [0]; any other status, [null] for a signal
    included, gives ["failure"]. *)
Theorem executeCliTool_conclusion (env : Env) (fileExists : jstr -> bool)
    (spawnSync : jstr -> list jstr -> list (jstr * json) -> SpawnResult)
    (timestamp : jstr) (config : CliToolConfig) :
  (snd (snd (executeCliTool env fileExists spawnSync timestamp config)) = u "success"
   <-> status (spawnSync (command config) (args config) (envSetup config)) = Some 0%Z) /\
  (status (spawnSync (command config) (args config) (envSetup config)) <> Some 0%Z ->
   snd (snd (executeCliTool env fileExists spawnSync timestamp config)) = u "failure").
Proof.
  unfold executeCliTool. cbn [snd].
  destruct (status (spawnSync (command config) (args config) (envSetup config)))
    as [[|p|p]|]; split; try split; intros H; try reflexivity;
    try discriminate H; try contradiction.
Qed.

Definition signalled_spawn : jstr -> list jstr -> list (jstr * json) -> SpawnResult :=
  fun _ _ _ => {| status := None |}.

Definition sample_config : CliToolConfig :=
  {| command := u "npx"; installCommand := None; args := [u "@openai/codex"];
     envSetup := [] |}.

Lemma executeCliTool_conclusion_witness :
  status (signalled_spawn (command sample_config) (args sample_config)
            (envSetup sample_config)) <> Some 0%Z /\
  snd (snd (executeCliTool empty_env (fun _ => false) signalled_spawn (u "t0")
              sample_config)) = u "failure".
Proof.
  assert (H : status (signalled_spawn (command sample_config) (args sample_config)
                        (envSetup sample_config)) <> Some 0%Z) by discriminate.
  refine (conj H _).
  exact (proj2 (executeCliTool_conclusion empty_env (fun _ => false) signalled_spawn
                  (u "t0") sample_config) H).
Defined.

(** ** Further properties: trigger outputs *)

Lemma checkContainsTrigger_ok (context : ParsedGitHubContext) :
  trigger_ok (checkContainsTrigger context).
Proof.
  unfold checkContainsTrigger.
  destruct (truthy (directPrompt (inputs context))).
  { eexists. split; [reflexivity|]. simpl. split; congruence. }
  repeat (apply fall_through_ok;
          [ repeat match goal with
                   | |- context [if ?b then _ else _] => destruct b
                   end;
            auto using body_title_block_ok, body_block_ok, no_block_ok;
            right; eexists; reflexivity
          | ]).
  eexists. split; [reflexivity|]. simpl. split; [discriminate | tauto].
Qed.

(** [checkTriggerAction] never throws, and it sets one of two output
    shapes: [contains_trigger = "false"] alone with [false] returned, or
    [contains_trigger = "true"] followed by an [ai_provider] output with
    [true] returned. *)
Theorem checkTriggerAction_outputs (context : ParsedGitHubContext) :
  checkTriggerAction context = Ok ([(u "contains_trigger", u "false")], false) \/
  exists a, checkTriggerAction context
            = Ok ([(u "contains_trigger", u "true");
                   (u "ai_provider", provider_text a)], true).
Proof.
  unfold checkTriggerAction.
  destruct (checkContainsTrigger_ok context) as [[b o] [-> Hr]]. simpl in Hr |- *.
  destruct b, o as [a|].
  - right. exists a. reflexivity.
  - exfalso. destruct Hr as [H _]. apply H; reflexivity.
  - exfalso. destruct Hr as [_ H]. discriminate (H ltac:(discriminate)).
  - left. reflexivity.
Qed.

(** ** Further properties: escapeRegExp *)

(** Reading the escaped text back, a backslash quoting the next code
    unit, gives the original string. *)
Theorem escapeRegExp_unescape (s : jstr) : unescape (escapeRegExp s) = s.
Proof.
  induction s as [|c s IH]; [reflexivity|]. cbn [escapeRegExp].
  destruct (is_syntax_char c) eqn:Hc.
  - simpl. rewrite IH. reflexivity.
  - cbn [unescape]. destruct (N.eqb c 92) eqn:E.
    + apply N.eqb_eq in E. subst. discriminate Hc.
    + rewrite IH. reflexivity.
Qed.

(** Escaping adds exactly one backslash per syntax character. *)
Theorem escapeRegExp_length (s : jstr) :
  length (escapeRegExp s) = length s + length (filter is_syntax_char s).
Proof.
  induction s as [|c s IH]; [reflexivity|]. cbn [escapeRegExp filter].
  destruct (is_syntax_char c); simpl; rewrite IH; lia.
Qed.

(** A string without syntax characters is left unchanged. *)
Theorem escapeRegExp_plain (s : jstr) :
  Forall (fun c => is_syntax_char c = false) s -> escapeRegExp s = s.
Proof.
  induction 1 as [|c s Hc _ IH]; [reflexivity|].
  cbn [escapeRegExp]. rewrite Hc, IH. reflexivity.
Qed.

Lemma escapeRegExp_plain_witness :
  Forall (fun c => is_syntax_char c = false) (u "@hud-bot") /\
  escapeRegExp (u "@hud-bot") = u "@hud-bot".
Proof.
  assert (H : Forall (fun c => is_syntax_char c = false) (u "@hud-bot"))
    by (repeat constructor).
  refine (conj H _). exact (escapeRegExp_plain _ H).
Defined.

(** ** Further properties: installing the tool *)

(** Without an install command nothing is spawned and the step returns;
    with one, exactly that command is spawned, and the step returns when
    its exit status is [0] and otherwise throws a message giving the whole
    command line ([null], a signal, included). *)
Theorem installCliTool_spec
    (spawnSync : jstr -> list jstr -> list (jstr * json) -> SpawnResult)
    (config : CliToolConfig) :
  (installCommand config = None -> installCliTool spawnSync config = ([], Ok tt)) /\
  (forall c rest, installCommand config = Some (c :: rest) ->
     fst (installCliTool spawnSync config) = [(c, rest)] /\
     (snd (installCliTool spawnSync config) = Ok tt
      <-> status (spawnSync c rest []) = Some 0%Z) /\
     (status (spawnSync c rest []) <> Some 0%Z ->
      snd (installCliTool spawnSync config)
      = Throw (u "Failed to install CLI tool: " ++ join (u " ") (c :: rest)))).
Proof.
  unfold installCliTool. split.
  - intros ->. reflexivity.
  - intros c rest ->. cbn [fst snd]. split; [reflexivity|].
    destruct (status (spawnSync c rest [])) as [[|p|p]|];
      split; try split; intros H; try reflexivity; try discriminate H;
      try contradiction.
Qed.

Lemma getCliToolConfig_shape (env : Env) (cliTool : jstr) (config : CliToolConfig) :
  getCliToolConfig env cliTool = Ok config ->
  command config = u "npx" /\
  (exists pkg rest, installCommand config = Some [u "npm"; u "install"; u "-g"; pkg] /\
                    args config = pkg :: rest) /\
  (exists keyName modelName,
     env_setup keyName modelName (env_or env "API_KEY" []) (env_or env "MODEL" [])
       (env_or env "AI_ENV" []) = Ok (envSetup config)).
Proof.
  unfold getCliToolConfig. cbv zeta.
  repeat match goal with
         | |- context [if jstr_eqb cliTool ?t then _ else _] =>
             destruct (jstr_eqb cliTool t)
         end;
    try discriminate;
    match goal with
    | |- bind (env_setup ?k ?m _ _ _) _ = _ -> _ =>
        destruct (env_setup k m _ _ _) as [l|e] eqn:E; simpl;
        [ intros H; injection H as <-; simpl;
          split; [reflexivity | split; [do 2 eexists; split; reflexivity | eauto]]
        | discriminate ]
    end.
Qed.

(** Every configuration runs [npx] on the very package its install step
    installs globally with [npm install -g]. *)
Theorem getCliToolConfig_install_matches (env : Env) (cliTool : jstr)
    (config : CliToolConfig) :
  getCliToolConfig env cliTool = Ok config ->
  command config = u "npx" /\
  exists pkg rest, installCommand config = Some [u "npm"; u "install"; u "-g"; pkg] /\
                   args config = pkg :: rest.
Proof.
  intros H. destruct (getCliToolConfig_shape env cliTool config H) as (H1 & H2 & _).
  split; assumption.
Qed.

Lemma getCliToolConfig_install_matches_witness :
  exists config, getCliToolConfig empty_env (u "augment-cli") = Ok config /\
  command config = u "npx" /\
  exists pkg rest, installCommand config = Some [u "npm"; u "install"; u "-g"; pkg] /\
                   args config = pkg :: rest.
Proof.
  eexists. refine (conj (eq_refl _) _).
  exact (getCliToolConfig_install_matches empty_env (u "augment-cli") _ eq_refl).
Defined.

(** ** Further properties: the AI_ENV overrides *)

Lemma lookup_key_app x l1 l2 :
  lookup_key x (l1 ++ l2)
  = match lookup_key x l1 with Some v => Some v | None => lookup_key x l2 end.
Proof.
  induction l1 as [|[k v] l1 IH]; [reflexivity|]. cbn [app lookup_key].
  destruct (jstr_eqb k x); [reflexivity | exact IH].
Qed.

Lemma lookup_key_absent k kvs :
  existsb (fun e => jstr_eqb (fst e) k) kvs = false -> lookup_key k kvs = None.
Proof.
  induction kvs as [|[k' v'] r IH]; [reflexivity|]. cbn [existsb fst lookup_key].
  intros Ex. apply orb_false_iff in Ex as [Ek Ex]. rewrite Ek. exact (IH Ex).
Qed.

Lemma lookup_key_assign x kvs kv :
  lookup_key x (assign kvs kv)
  = if jstr_eqb (fst kv) x then Some (snd kv) else lookup_key x kvs.
Proof.
  destruct kv as [k v]. unfold assign. cbn [fst snd].
  destruct (jstr_eqb k x) eqn:Ekx.
  - apply jstr_eqb_spec in Ekx. subst x.
    destruct (existsb (fun e => jstr_eqb (fst e) k) kvs) eqn:Ex.
    + induction kvs as [|[k' v'] r IH]; [discriminate|].
      cbn [map lookup_key fst existsb] in *.
      destruct (jstr_eqb k' k) eqn:Ek; cbn [lookup_key].
      * rewrite (proj2 (jstr_eqb_spec k k) eq_refl). reflexivity.
      * rewrite Ek. apply IH. exact Ex.
    + rewrite lookup_key_app, (lookup_key_absent k kvs Ex). cbn [lookup_key].
      rewrite (proj2 (jstr_eqb_spec k k) eq_refl). reflexivity.
  - destruct (existsb (fun e => jstr_eqb (fst e) k) kvs) eqn:Ex.
    + clear Ex. induction kvs as [|[k' v'] r IH]; [reflexivity|].
      cbn [map lookup_key fst].
      destruct (jstr_eqb k' k) eqn:Ek; cbn [lookup_key].
      * apply jstr_eqb_spec in Ek. subst k'. rewrite Ekx. exact IH.
      * rewrite IH. reflexivity.
    + rewrite lookup_key_app. destruct (lookup_key x kvs); [reflexivity|].
      cbn [lookup_key]. rewrite Ekx. reflexivity.
Qed.

Lemma lookup_key_fold_assign x l base :
  lookup_key x (fold_left assign l base)
  = match lookup_key x (rev l) with Some v => Some v | None => lookup_key x base end.
Proof.
  revert base; induction l as [|kv l IH]; intros base; [reflexivity|].
  cbn [fold_left rev]. rewrite IH, lookup_key_app, lookup_key_assign.
  destruct kv as [k v]. cbn [lookup_key fst snd].
  destruct (lookup_key x (rev l)); [reflexivity|].
  destruct (jstr_eqb k x); reflexivity.
Qed.

Lemma lookup_key_in x l : In x (map fst l) -> exists v, lookup_key x l = Some v.
Proof.
  induction l as [|[k v] l IH]; [contradiction|]. cbn [map fst lookup_key In].
  destruct (jstr_eqb k x) eqn:E; [eauto|].
  intros [->|H]; [|exact (IH H)].
  rewrite (proj2 (jstr_eqb_spec x x) eq_refl) in E. discriminate.
Qed.

Lemma env_or_some env x s : env (u x) = Some s -> s <> [] -> env_or env x [] = s.
Proof.
  unfold env_or. intros -> Hs. destruct s; [contradiction | reflexivity].
Qed.

(** For every tool, a key that [AI_ENV] sets (a JSON object) reads in the
    tool's environment overlay as [AI_ENV] has it, its last occurrence
    when repeated: [AI_ENV] overrides the API key and model entries. *)
Theorem getCliToolConfig_ai_env_override (env : Env) (cliTool aiEnv : jstr)
    (config : CliToolConfig) (kvs : list (jstr * json)) (x : jstr) :
  env (u "AI_ENV") = Some aiEnv ->
  JSON_parse aiEnv = Ok (JObj kvs) ->
  In x (map fst kvs) ->
  getCliToolConfig env cliTool = Ok config ->
  lookup_key x (envSetup config) = lookup_key x (rev kvs).
Proof.
  intros Henv Hp Hx Hc.
  destruct (getCliToolConfig_shape env cliTool config Hc) as (_ & _ & k & m & Hs).
  assert (Hne : aiEnv <> []) by (intros ->; discriminate Hp).
  rewrite (env_or_some env "AI_ENV" aiEnv Henv Hne) in Hs.
  unfold env_setup in Hs. destruct aiEnv as [|c s]; [contradiction|].
  cbn [truthy] in Hs. rewrite Hp in Hs. cbn [bind spread_entries] in Hs.
  injection Hs as <-. rewrite lookup_key_fold_assign.
  assert (Hr : In x (map fst (rev kvs))) by (rewrite map_rev; apply in_rev; rewrite rev_involutive; exact Hx).
  destruct (lookup_key_in x (rev kvs) Hr) as [v ->]. reflexivity.
Qed.

Definition override_env : Env :=
  fun x => if jstr_eqb x (u "AI_ENV") then Some (uq "{'OPENAI_API_KEY': 'sk-2'}")
           else if jstr_eqb x (u "API_KEY") then Some (u "sk-1") else None.

Lemma getCliToolConfig_ai_env_override_witness :
  exists config,
  override_env (u "AI_ENV") = Some (uq "{'OPENAI_API_KEY': 'sk-2'}") /\
  JSON_parse (uq "{'OPENAI_API_KEY': 'sk-2'}") = Ok (JObj [(u "OPENAI_API_KEY", JStr (u "sk-2"))]) /\
  In (u "OPENAI_API_KEY") (map fst [(u "OPENAI_API_KEY", JStr (u "sk-2"))]) /\
  getCliToolConfig override_env (u "codex-cli") = Ok config /\
  lookup_key (u "OPENAI_API_KEY") (envSetup config) = Some (JStr (u "sk-2")).
Proof.
  eexists.
  assert (H1 : override_env (u "AI_ENV") = Some (uq "{'OPENAI_API_KEY': 'sk-2'}"))
    by reflexivity.
  assert (H2 : JSON_parse (uq "{'OPENAI_API_KEY': 'sk-2'}")
               = Ok (JObj [(u "OPENAI_API_KEY", JStr (u "sk-2"))])) by reflexivity.
  assert (H3 : In (u "OPENAI_API_KEY") (map fst [(u "OPENAI_API_KEY", JStr (u "sk-2"))]))
    by (left; reflexivity).
  refine (conj H1 (conj H2 (conj H3 (conj (eq_refl _) _)))).
  exact (getCliToolConfig_ai_env_override override_env (u "codex-cli") _ _ _ _
           H1 H2 H3 eq_refl).
Defined.

(** ** Further properties: run *)

Lemma output_file_execute env fileExists spawnSync timestamp config :
  fst (snd (executeCliTool env fileExists spawnSync timestamp config)) = output_file env.
Proof. reflexivity. Qed.

Ltac run_split env fileExists spawnSync :=
  unfold run; cbv zeta;
  destruct (truthy (or_empty (env (u "PROMPT_FILE")))) eqn:Hpf; cbn [negb];
  [ destruct (fileExists (or_empty (env (u "PROMPT_FILE")))) eqn:Hfe; cbn [negb];
    [ destruct (getCliToolConfig env (env_or env "CLI_TOOL" (u "claude-cli")))
        as [config|e] eqn:Hcfg;
      [ destruct (installCliTool spawnSync config) as [spawns [[]|e]] eqn:Hins;
        [ unfold executeCliTool; cbv beta iota zeta;
          fold (output_file env)
        | ]
      | ]
    | ]
  | ].

(** [run] always sets [execution_file] to the output path and
    [conclusion] to ["success"] or ["failure"], and it reports a failure
    ([core.setFailed]) exactly when the conclusion is not ["success"]. *)
Theorem run_outputs (env : Env) (fileExists : jstr -> bool)
    (spawnSync : jstr -> list jstr -> list (jstr * json) -> SpawnResult)
    (timestamp : jstr) :
  exists conclusion,
    rr_outputs (run env fileExists spawnSync timestamp)
      = [(u "execution_file", output_file env); (u "conclusion", conclusion)] /\
    (conclusion = u "success" \/ conclusion = u "failure") /\
    (rr_failed (run env fileExists spawnSync timestamp) = None
     <-> conclusion = u "success").
Proof.
  run_split env fileExists spawnSync.
  1: destruct (status (spawnSync (command config) (args config) (envSetup config)))
      as [[|p|p]|];
      eexists; (split; [reflexivity|]); (split; [first [left; reflexivity | right; reflexivity]|]); cbn [rr_failed];
      split; intros H; try reflexivity; try discriminate H; simpl in H;
      discriminate H.
  all: eexists; (split; [reflexivity|]); (split; [first [left; reflexivity | right; reflexivity]|]);
       split; intros H; discriminate H.
Qed.

(** With [PROMPT_FILE] unset or empty, [run] spawns nothing, fails with
    ["Execute CLI failed: PROMPT_FILE environment variable is required"],
    writes the error record to the output path and exits with code 1. *)
Theorem run_missing_prompt (env : Env) (fileExists : jstr -> bool)
    (spawnSync : jstr -> list jstr -> list (jstr * json) -> SpawnResult)
    (timestamp : jstr) :
  or_empty (env (u "PROMPT_FILE")) = [] ->
  rr_spawns (run env fileExists spawnSync timestamp) = [] /\
  rr_failed (run env fileExists spawnSync timestamp)
    = Some (u "Execute CLI failed: PROMPT_FILE environment variable is required") /\
  rr_files (run env fileExists spawnSync timestamp)
    = [(output_file env,
        ErrorFile [{| ed_type := u "error";
                      ed_error := u "PROMPT_FILE environment variable is required";
                      ed_timestamp := timestamp |}])] /\
  rr_exit (run env fileExists spawnSync timestamp) = Some 1%Z.
Proof.
  intros H. unfold run. cbv zeta. rewrite H. cbn [truthy negb].
  repeat split.
Qed.

Lemma run_missing_prompt_witness :
  or_empty (empty_env (u "PROMPT_FILE")) = [] /\
  rr_spawns (run empty_env (fun _ => true) signalled_spawn (u "t0")) = [] /\
  rr_failed (run empty_env (fun _ => true) signalled_spawn (u "t0"))
    = Some (u "Execute CLI failed: PROMPT_FILE environment variable is required") /\
  rr_files (run empty_env (fun _ => true) signalled_spawn (u "t0"))
    = [(output_file empty_env,
        ErrorFile [{| ed_type := u "error";
                      ed_error := u "PROMPT_FILE environment variable is required";
                      ed_timestamp := u "t0" |}])] /\
  rr_exit (run empty_env (fun _ => true) signalled_spawn (u "t0")) = Some 1%Z.
Proof.
  assert (H : or_empty (empty_env (u "PROMPT_FILE")) = []) by reflexivity.
  refine (conj H _).
  exact (run_missing_prompt empty_env (fun _ => true) signalled_spawn (u "t0") H).
Defined.

(** When the install step of the configured tool exits with a status
    other than [0], [run] never spawns the tool itself: the install
    command is the only spawn, and [run] fails with the install error and
    exits with code 1. *)
Theorem run_install_failure (env : Env) (fileExists : jstr -> bool)
    (spawnSync : jstr -> list jstr -> list (jstr * json) -> SpawnResult)
    (timestamp : jstr) (config : CliToolConfig) (pkg : jstr) :
  truthy (or_empty (env (u "PROMPT_FILE"))) = true ->
  fileExists (or_empty (env (u "PROMPT_FILE"))) = true ->
  getCliToolConfig env (env_or env "CLI_TOOL" (u "claude-cli")) = Ok config ->
  installCommand config = Some [u "npm"; u "install"; u "-g"; pkg] ->
  status (spawnSync (u "npm") [u "install"; u "-g"; pkg] []) <> Some 0%Z ->
  rr_spawns (run env fileExists spawnSync timestamp)
    = [(u "npm", [u "install"; u "-g"; pkg])] /\
  rr_failed (run env fileExists spawnSync timestamp)
    = Some (u "Execute CLI failed: Failed to install CLI tool: npm install -g " ++ pkg) /\
  rr_exit (run env fileExists spawnSync timestamp) = Some 1%Z.
Proof.
  intros Hpf Hfe Hcfg Hic Hst. unfold run. cbv zeta.
  rewrite Hpf, Hfe, Hcfg. cbn [negb].
  unfold installCliTool. rewrite Hic.
  destruct (status (spawnSync (u "npm") [u "install"; u "-g"; pkg] []))
    as [[|p|p]|]; [contradiction Hst; reflexivity | ..];
    repeat split.
Qed.

Definition tool_env (tool : string) : Env :=
  fun x => if jstr_eqb x (u "PROMPT_FILE") then Some (u "/tmp/prompt.txt")
           else if jstr_eqb x (u "CLI_TOOL") then Some (u tool) else None.

Definition exit_spawn (code : Z) : jstr -> list jstr -> list (jstr * json) -> SpawnResult :=
  fun _ _ _ => {| status := Some code |}.

Lemma run_install_failure_witness :
  exists config,
  truthy (or_empty (tool_env "gemini-cli" (u "PROMPT_FILE"))) = true /\
  (fun _ : jstr => true) (or_empty (tool_env "gemini-cli" (u "PROMPT_FILE"))) = true /\
  getCliToolConfig (tool_env "gemini-cli")
    (env_or (tool_env "gemini-cli") "CLI_TOOL" (u "claude-cli")) = Ok config /\
  installCommand config
    = Some [u "npm"; u "install"; u "-g"; u "@google-ai/generativelanguage"] /\
  status (exit_spawn 1 (u "npm") [u "install"; u "-g"; u "@google-ai/generativelanguage"] [])
    <> Some 0%Z /\
  rr_spawns (run (tool_env "gemini-cli") (fun _ => true) (exit_spawn 1) (u "t0"))
    = [(u "npm", [u "install"; u "-g"; u "@google-ai/generativelanguage"])] /\
  rr_failed (run (tool_env "gemini-cli") (fun _ => true) (exit_spawn 1) (u "t0"))
    = Some (u "Execute CLI failed: Failed to install CLI tool: npm install -g "
            ++ u "@google-ai/generativelanguage") /\
  rr_exit (run (tool_env "gemini-cli") (fun _ => true) (exit_spawn 1) (u "t0"))
    = Some 1%Z.
Proof.
  eexists.
  assert (H1 : truthy (or_empty (tool_env "gemini-cli" (u "PROMPT_FILE"))) = true)
    by reflexivity.
  assert (H2 : (fun _ : jstr => true) (or_empty (tool_env "gemini-cli" (u "PROMPT_FILE")))
               = true) by reflexivity.
  refine (conj H1 (conj H2 (conj (eq_refl _) _))).
  assert (H4 : installCommand
                 match getCliToolConfig (tool_env "gemini-cli")
                         (env_or (tool_env "gemini-cli") "CLI_TOOL" (u "claude-cli")) with
                 | Ok c => c | Throw _ => sample_config end
               = Some [u "npm"; u "install"; u "-g"; u "@google-ai/generativelanguage"])
    by reflexivity.
  refine (conj H4 _).
  assert (H5 : status (exit_spawn 1 (u "npm")
                         [u "install"; u "-g"; u "@google-ai/generativelanguage"] [])
               <> Some 0%Z) by discriminate.
  refine (conj H5 _).
  exact (run_install_failure (tool_env "gemini-cli") (fun _ => true) (exit_spawn 1)
           (u "t0") _ _ H1 H2 eq_refl H4 H5).
Defined.

(** [run] reports no failure only when the install step and then the
    tool ran, in that order, and both exited with status [0]; in that case
    it does not call [process.exit]. *)
Theorem run_success_spawns (env : Env) (fileExists : jstr -> bool)
    (spawnSync : jstr -> list jstr -> list (jstr * json) -> SpawnResult)
    (timestamp : jstr) :
  rr_failed (run env fileExists spawnSync timestamp) = None ->
  exists config pkg rest,
    getCliToolConfig env (env_or env "CLI_TOOL" (u "claude-cli")) = Ok config /\
    args config = pkg :: rest /\
    rr_spawns (run env fileExists spawnSync timestamp)
      = [(u "npm", [u "install"; u "-g"; pkg]); (u "npx", pkg :: rest)] /\
    status (spawnSync (u "npm") [u "install"; u "-g"; pkg] []) = Some 0%Z /\
    status (spawnSync (u "npx") (pkg :: rest) (envSetup config)) = Some 0%Z /\
    rr_exit (run env fileExists spawnSync timestamp) = None.
Proof.
  run_split env fileExists spawnSync; cbn [rr_failed]; try discriminate.
  destruct (getCliToolConfig_shape _ _ _ Hcfg) as (Hcmd & (pkg & rest & Hic & Har) & _).
  unfold installCliTool in Hins. rewrite Hic in Hins.
  destruct (status (spawnSync (u "npm") [u "install"; u "-g"; pkg] [])) as [[|p|p]|] eqn:Hi;
    try discriminate Hins.
  injection Hins as <-.
  rewrite Hcmd, Har in *.
  destruct (status (spawnSync (u "npx") (pkg :: rest) (envSetup config))) as [[|q|q]|] eqn:Hx;
    simpl; intros H; try discriminate H.
  exists config, pkg, rest. repeat split; assumption.
Qed.

Definition ok_spawn := exit_spawn 0.

Lemma run_success_spawns_witness :
  rr_failed (run (tool_env "codex-cli") (fun _ => true) ok_spawn (u "t0")) = None /\
  exists config pkg rest,
    getCliToolConfig (tool_env "codex-cli")
      (env_or (tool_env "codex-cli") "CLI_TOOL" (u "claude-cli")) = Ok config /\
    args config = pkg :: rest /\
    rr_spawns (run (tool_env "codex-cli") (fun _ => true) ok_spawn (u "t0"))
      = [(u "npm", [u "install"; u "-g"; pkg]); (u "npx", pkg :: rest)] /\
    status (ok_spawn (u "npm") [u "install"; u "-g"; pkg] []) = Some 0%Z /\
    status (ok_spawn (u "npx") (pkg :: rest) (envSetup config)) = Some 0%Z /\
    rr_exit (run (tool_env "codex-cli") (fun _ => true) ok_spawn (u "t0")) = None.
Proof.
  assert (H : rr_failed (run (tool_env "codex-cli") (fun _ => true) ok_spawn (u "t0"))
              = None) by reflexivity.
  exact (conj H (run_success_spawns _ _ _ _ H)).
Defined.

(** [run] writes at most one file, always at the output path; it writes
    none only when that file already exists, and a result record there
    carries the conclusion [run] sets as output. *)
Theorem run_files (env : Env) (fileExists : jstr -> bool)
    (spawnSync : jstr -> list jstr -> list (jstr * json) -> SpawnResult)
    (timestamp : jstr) :
  (rr_files (run env fileExists spawnSync timestamp) = [] /\
   fileExists (output_file env) = true) \/
  (exists d, rr_files (run env fileExists spawnSync timestamp) = [(output_file env, d)] /\
   forall ds, d = ResultFile ds ->
     Forall (fun od => In (u "conclusion", od_status od)
                          (rr_outputs (run env fileExists spawnSync timestamp))) ds).
Proof.
  run_split env fileExists spawnSync.
  1: cbn [rr_files rr_outputs];
     destruct (fileExists (output_file env)) eqn:Ho;
     [ left; split; reflexivity
     | right; eexists; split; [reflexivity|];
       intros ds Hd; injection Hd as <-;
       repeat constructor; right; left; reflexivity ].
  all: right; eexists; split; [reflexivity | intros ds Hd; discriminate Hd].
Qed.

Lemma getCliToolConfig_claude (env : Env) (config : CliToolConfig) :
  getCliToolConfig env (u "claude-cli") = Ok config ->
  installCommand config = Some [u "npm"; u "install"; u "-g"; u "@anthropic-ai/claude-code"] /\
  exists rest, args config = u "@anthropic-ai/claude-code" :: rest.
Proof.
  unfold getCliToolConfig. cbv zeta.
  change (jstr_eqb (u "claude-cli") (u "claude-cli")) with true. cbv iota.
  destruct (env_setup _ _ _ _ _); simpl; intros H; [|discriminate H].
  injection H as <-. split; [reflexivity | eexists; reflexivity].
Qed.

(** With [CLI_TOOL] unset or empty, [run] uses [claude-cli]: every spawn
    it makes passes [@anthropic-ai/claude-code] among its arguments. *)
Theorem run_default_tool (env : Env) (fileExists : jstr -> bool)
    (spawnSync : jstr -> list jstr -> list (jstr * json) -> SpawnResult)
    (timestamp : jstr) :
  or_empty (env (u "CLI_TOOL")) = [] ->
  Forall (fun sp => In (u "@anthropic-ai/claude-code") (snd sp))
         (rr_spawns (run env fileExists spawnSync timestamp)).
Proof.
  intros Htool.
  assert (Hd : env_or env "CLI_TOOL" (u "claude-cli") = u "claude-cli").
  { unfold env_or. destruct (env (u "CLI_TOOL")) as [[|c s]|]; simpl in Htool;
      [reflexivity | discriminate Htool | reflexivity]. }
  run_split env fileExists spawnSync; unfold run_failure; cbn [rr_spawns];
    try constructor.
  all: rewrite Hd in Hcfg;
       destruct (getCliToolConfig_claude env config Hcfg) as [Hic [rest Har]];
       unfold installCliTool in Hins; rewrite Hic in Hins;
       destruct (status (spawnSync (u "npm")
                   [u "install"; u "-g"; u "@anthropic-ai/claude-code"] []))
         as [[|p|p]|]; inversion Hins; subst; rewrite ?Har; simpl;
       repeat (constructor;
               [simpl; repeat (first [left; reflexivity | right]) |]);
       apply Forall_nil.
Qed.

Lemma run_default_tool_witness :
  or_empty (tool_env "" (u "CLI_TOOL")) = [] /\
  Forall (fun sp => In (u "@anthropic-ai/claude-code") (snd sp))
         (rr_spawns (run (tool_env "") (fun _ => true) ok_spawn (u "t0"))).
Proof.
  assert (H : or_empty (tool_env "" (u "CLI_TOOL")) = []) by reflexivity.
  exact (conj H (run_default_tool _ _ _ _ H)).
Defined.

(** ** Further properties: checkContainsTrigger by event *)

Ltac eval_names :=
  repeat match goal with
         | |- context [jstr_eqb (u ?a) (u ?b)] =>
             let v := eval vm_compute in (jstr_eqb (u a) (u b)) in
             change (jstr_eqb (u a) (u b)) with v
         end.

Ltac unfold_guards :=
  unfold checkContainsTrigger, isIssuesAssignedEvent, isIssuesEvent,
    isIssueCommentEvent, isPullRequestEvent, isPullRequestReviewEvent,
    isPullRequestReviewCommentEvent.




(** For an event outside the six the action knows, and no direct prompt,
    the result is not triggered. *)
Theorem checkContainsTrigger_other_event (context : ParsedGitHubContext) :
  ~ In (eventName context)
      [u "issues"; u "issue_comment"; u "pull_request"; u "pull_request_review";
       u "pull_request_review_comment"] ->
  directPrompt (inputs context) = [] ->
  checkContainsTrigger context = Ok {| containsTrigger := false; aiProvider := None |}.
Proof.
  intros Hn Hd. unfold_guards. rewrite Hd. cbn [truthy].
  repeat match goal with
         | |- context [jstr_eqb (eventName context) ?t] =>
             let E := fresh "E" in
             destruct (jstr_eqb (eventName context) t) eqn:E;
             [ apply jstr_eqb_spec in E; exfalso; apply Hn; rewrite E; simpl; tauto | ]
         end.
  reflexivity.
Qed.

Lemma checkContainsTrigger_other_event_witness :
  ~ In (eventName {| eventName := u "push"; eventAction := u "created";
        repository := {| owner := u "acme"; repo := u "app" |};
        actor := u "octocat"; inputs := sample_inputs; payload := sample_payload |})
      [u "issues"; u "issue_comment"; u "pull_request"; u "pull_request_review";
       u "pull_request_review_comment"] /\
  directPrompt (inputs {| eventName := u "push"; eventAction := u "created";
        repository := {| owner := u "acme"; repo := u "app" |};
        actor := u "octocat"; inputs := sample_inputs; payload := sample_payload |}) = [] /\
  checkContainsTrigger {| eventName := u "push"; eventAction := u "created";
        repository := {| owner := u "acme"; repo := u "app" |};
        actor := u "octocat"; inputs := sample_inputs; payload := sample_payload |}
  = Ok {| containsTrigger := false; aiProvider := None |}.
Proof.
  assert (H1 : ~ In (eventName {| eventName := u "push"; eventAction := u "created";
        repository := {| owner := u "acme"; repo := u "app" |};
        actor := u "octocat"; inputs := sample_inputs; payload := sample_payload |})
      [u "issues"; u "issue_comment"; u "pull_request"; u "pull_request_review";
       u "pull_request_review_comment"])
    by (simpl; intros H; repeat destruct H as [H|H]; discriminate H || exact H).
  assert (H2 : directPrompt (inputs {| eventName := u "push"; eventAction := u "created";
        repository := {| owner := u "acme"; repo := u "app" |};
        actor := u "octocat"; inputs := sample_inputs; payload := sample_payload |}) = [])
    by reflexivity.
  refine (conj H1 (conj H2 _)).
  exact (checkContainsTrigger_other_event _ H1 H2).
Defined.

(** On an opened issue (no direct prompt) a provider mention decides the
    result ahead of the trigger phrase: the body's provider if the body
    has one, else the title's. *)
Theorem checkContainsTrigger_opened_provider (context : ParsedGitHubContext)
    (a : AIProvider) :
  eventName context = u "issues" ->
  eventAction context = u "opened" ->
  directPrompt (inputs context) = [] ->
  (detectAIProvider (or_empty (issue_body (payload context))) = Some a \/
   (detectAIProvider (or_empty (issue_body (payload context))) = None /\
    detectAIProvider (or_empty (issue_title (payload context))) = Some a)) ->
  checkContainsTrigger context = Ok (triggered a).
Proof.
  intros Hn Ha Hd Hp. unfold_guards. rewrite Hn, Ha, Hd. eval_names.
  cbn [truthy andb orb fall_through]. unfold body_title_block.
  destruct Hp as [-> | [-> ->]]; reflexivity.
Qed.

Lemma checkContainsTrigger_opened_provider_witness :
  eventName sample_context = u "issues" /\
  eventAction sample_context = u "opened" /\
  directPrompt (inputs sample_context) = [] /\
  (detectAIProvider (or_empty (issue_body (payload sample_context))) = Some claude \/
   (detectAIProvider (or_empty (issue_body (payload sample_context))) = None /\
    detectAIProvider (or_empty (issue_title (payload sample_context))) = Some claude)) /\
  checkContainsTrigger sample_context = Ok (triggered claude).
Proof.
  assert (H1 : eventName sample_context = u "issues") by reflexivity.
  assert (H2 : eventAction sample_context = u "opened") by reflexivity.
  assert (H3 : directPrompt (inputs sample_context) = []) by reflexivity.
  assert (H4 : detectAIProvider (or_empty (issue_body (payload sample_context))) = Some claude \/
   (detectAIProvider (or_empty (issue_body (payload sample_context))) = None /\
    detectAIProvider (or_empty (issue_title (payload sample_context))) = Some claude))
    by (left; vm_compute; reflexivity).
  refine (conj H1 (conj H2 (conj H3 (conj H4 _)))).
  exact (checkContainsTrigger_opened_provider _ _ H1 H2 H3 H4).
Defined.

(** On a comment event (issue or pull-request review comment, any
    action) without direct prompt or provider mention, the result is
    triggered exactly when the trigger phrase occurs in the comment as a
    standalone word, and then with ["claude"]. *)
Theorem checkContainsTrigger_comment_phrase (context : ParsedGitHubContext) :
  (eventName context = u "issue_comment" \/
   eventName context = u "pull_request_review_comment") ->
  directPrompt (inputs context) = [] ->
  detectAIProvider (comment_body (payload context)) = None ->
  exists r, checkContainsTrigger context = Ok r /\
    (containsTrigger r = true <->
       standalone (triggerPhrase (inputs context)) (comment_body (payload context))) /\
    (containsTrigger r = true -> aiProvider r = Some claude).
Proof.
  intros Hn Hd Hp. unfold_guards. rewrite Hd.
  destruct Hn as [Hn|Hn]; rewrite Hn; eval_names;
    cbn [truthy andb orb fall_through]; unfold body_block; rewrite Hp;
    rewrite newRegExp_trigger; cbn [bind];
    pose proof (test_word_re (triggerPhrase (inputs context)) (comment_body (payload context))) as Ht;
    destruct (test (word_re (triggerPhrase (inputs context))) (comment_body (payload context)));
    (eexists; split; [reflexivity|]); cbn [containsTrigger aiProvider triggered];
    (split; [exact Ht | intros H; first [reflexivity | discriminate H]]).
Qed.

Definition comment_context (phrase body : string) : ParsedGitHubContext :=
  {| eventName := u "issue_comment"; eventAction := u "edited";
     repository := {| owner := u "acme"; repo := u "app" |};
     actor := u "octocat";
     inputs := {| triggerPhrase := u phrase; assigneeTrigger := [];
                  directPrompt := []; allowedBotNames := [] |};
     payload := {| assignee_login := None; issue_body := None; issue_title := None;
                   pull_request_body := None; pull_request_title := None;
                   review_body := None; comment_body := u body |} |}.

Lemma checkContainsTrigger_comment_phrase_witness :
  (eventName (comment_context "/hud" "please /hud, review") = u "issue_comment" \/
   eventName (comment_context "/hud" "please /hud, review") = u "pull_request_review_comment") /\
  directPrompt (inputs (comment_context "/hud" "please /hud, review")) = [] /\
  detectAIProvider (comment_body (payload (comment_context "/hud" "please /hud, review"))) = None /\
  exists r, checkContainsTrigger (comment_context "/hud" "please /hud, review") = Ok r /\
    (containsTrigger r = true <->
       standalone (triggerPhrase (inputs (comment_context "/hud" "please /hud, review")))
                  (comment_body (payload (comment_context "/hud" "please /hud, review")))) /\
    (containsTrigger r = true -> aiProvider r = Some claude).
Proof.
  assert (H1 : eventName (comment_context "/hud" "please /hud, review") = u "issue_comment" \/
               eventName (comment_context "/hud" "please /hud, review")
               = u "pull_request_review_comment") by (left; reflexivity).
  assert (H2 : directPrompt (inputs (comment_context "/hud" "please /hud, review")) = [])
    by reflexivity.
  assert (H3 : detectAIProvider (comment_body (payload (comment_context "/hud" "please /hud, review")))
               = None) by (vm_compute; reflexivity).
  refine (conj H1 (conj H2 (conj H3 _))).
  exact (checkContainsTrigger_comment_phrase _ H1 H2 H3).
Defined.

(** A pull-request review whose action is neither ["submitted"] nor
    ["edited"] (a dismissal, say) never triggers without direct prompt,
    whatever its body says. *)
Theorem checkContainsTrigger_review_action (context : ParsedGitHubContext) :
  eventName context = u "pull_request_review" ->
  eventAction context <> u "submitted" ->
  eventAction context <> u "edited" ->
  directPrompt (inputs context) = [] ->
  checkContainsTrigger context = Ok {| containsTrigger := false; aiProvider := None |}.
Proof.
  intros Hn Hs He Hd. unfold_guards. rewrite Hn, Hd. eval_names.
  destruct (jstr_eqb (eventAction context) (u "submitted")) eqn:E1;
    [apply jstr_eqb_spec in E1; contradiction|].
  destruct (jstr_eqb (eventAction context) (u "edited")) eqn:E2;
    [apply jstr_eqb_spec in E2; contradiction|].
  reflexivity.
Qed.

Definition dismissed_review : ParsedGitHubContext :=
  {| eventName := u "pull_request_review"; eventAction := u "dismissed";
     repository := {| owner := u "acme"; repo := u "app" |};
     actor := u "octocat"; inputs := sample_inputs;
     payload := {| assignee_login := None; issue_body := None; issue_title := None;
                   pull_request_body := None; pull_request_title := None;
                   review_body := Some (u "@claude please look"); comment_body := [] |} |}.

Lemma checkContainsTrigger_review_action_witness :
  eventName dismissed_review = u "pull_request_review" /\
  eventAction dismissed_review <> u "submitted" /\
  eventAction dismissed_review <> u "edited" /\
  directPrompt (inputs dismissed_review) = [] /\
  checkContainsTrigger dismissed_review = Ok {| containsTrigger := false; aiProvider := None |}.
Proof.
  assert (H1 : eventName dismissed_review = u "pull_request_review") by reflexivity.
  assert (H2 : eventAction dismissed_review <> u "submitted") by discriminate.
  assert (H3 : eventAction dismissed_review <> u "edited") by discriminate.
  assert (H4 : directPrompt (inputs dismissed_review) = []) by reflexivity.
  refine (conj H1 (conj H2 (conj H3 (conj H4 _)))).
  exact (checkContainsTrigger_review_action _ H1 H2 H3 H4).
Defined.

(** ** Further properties: actor lookup, configuration and output record *)

(** When the user lookup fails, [checkAllowedActor] throws that very
    error, unwrapped, after the one lookup call. *)
Theorem checkAllowedActor_lookup_error (octokit : Octokit) (ctx : ParsedGitHubContext)
    (tr : list ApiCall) (e : jstr) :
  users_getByUsername octokit (actor ctx) = Throw e ->
  checkAllowedActor octokit ctx tr = (Throw e, tr ++ [GetByUsername (actor ctx)]).
Proof.
  intros H. unfold checkAllowedActor, bindM, getByUsername. rewrite H. reflexivity.
Qed.

Definition failing_octokit : Octokit :=
  {| users_getByUsername := fun _ => Throw (u "HttpError: Not Found");
     repos_getCollaboratorPermissionLevel := fun _ _ _ => Throw (u "HttpError: Not Found") |}.

Lemma checkAllowedActor_lookup_error_witness :
  users_getByUsername failing_octokit (actor sample_context) = Throw (u "HttpError: Not Found") /\
  checkAllowedActor failing_octokit sample_context []
  = (Throw (u "HttpError: Not Found"), [] ++ [GetByUsername (actor sample_context)]).
Proof.
  assert (H : users_getByUsername failing_octokit (actor sample_context)
              = Throw (u "HttpError: Not Found")) by reflexivity.
  exact (conj H (checkAllowedActor_lookup_error _ _ [] _ H)).
Defined.

(** Every configuration passes the prompt file path to the tool: some
    argument contains [PROMPT_FILE]. *)
Theorem getCliToolConfig_prompt_arg (env : Env) (cliTool : jstr) (config : CliToolConfig) :
  getCliToolConfig env cliTool = Ok config ->
  exists arg, In arg (args config) /\ substring (env_or env "PROMPT_FILE" []) arg.
Proof.
  unfold getCliToolConfig. cbv zeta.
  repeat match goal with
         | |- context [if jstr_eqb cliTool ?t then _ else _] =>
             destruct (jstr_eqb cliTool t)
         end;
    try discriminate;
    (destruct (env_setup _ _ _ _ _) as [l|e] eqn:E; simpl; intros H;
     [injection H as <- | discriminate H]); cbn [args].
  - eexists. split; [right; right; left; reflexivity | exists [], []; rewrite app_nil_r; reflexivity].
  - eexists. split; [right; right; left; reflexivity | exists [], []; rewrite app_nil_r; reflexivity].
  - eexists. split; [right; right; right; left; reflexivity|].
    exists (u "Read and execute: "), []. rewrite app_nil_r. reflexivity.
  - eexists. split; [do 6 right; left; reflexivity|].
    exists (u "$(cat "), (u ")"). reflexivity.
Qed.

Lemma getCliToolConfig_prompt_arg_witness :
  exists config, getCliToolConfig (tool_env "codex-cli") (u "codex-cli") = Ok config /\
  exists arg, In arg (args config) /\
              substring (env_or (tool_env "codex-cli") "PROMPT_FILE" []) arg.
Proof.
  eexists. refine (conj (eq_refl _) _).
  exact (getCliToolConfig_prompt_arg (tool_env "codex-cli") (u "codex-cli") _ eq_refl).
Defined.

(** [executeCliTool] writes no record when the output file exists; else
    it writes one record at the output path whose status is the returned
    conclusion and whose [exit_code] is the spawn status, so the record
    says ["success"] exactly when it records exit code [0]. *)
Theorem executeCliTool_record (env : Env) (fileExists : jstr -> bool)
    (spawnSync : jstr -> list jstr -> list (jstr * json) -> SpawnResult)
    (timestamp : jstr) (config : CliToolConfig) :
  (fileExists (output_file env) = true ->
   fst (executeCliTool env fileExists spawnSync timestamp config) = None) /\
  (fileExists (output_file env) = false ->
   exists od,
     fst (executeCliTool env fileExists spawnSync timestamp config)
       = Some (output_file env, [od]) /\
     od_status od = snd (snd (executeCliTool env fileExists spawnSync timestamp config)) /\
     od_exit_code od = status (spawnSync (command config) (args config) (envSetup config)) /\
     (od_status od = u "success" <-> od_exit_code od = Some 0%Z)).
Proof.
  unfold executeCliTool. cbv zeta. fold (output_file env).
  split; intros H; rewrite H; [reflexivity|].
  eexists. split; [reflexivity|]. cbn. split; [reflexivity|]. split; [reflexivity|].
  destruct (status (spawnSync (command config) (args config) (envSetup config)))
    as [[|p|p]|]; split; intros E; try reflexivity; discriminate E.
Qed.

(** When [PROMPT_FILE] names a file that does not exist, [run] spawns
    nothing and fails with ["Prompt file not found: <path>"], exiting
    with code 1; the tool configuration is not even looked at. *)
Theorem run_prompt_not_found (env : Env) (fileExists : jstr -> bool)
    (spawnSync : jstr -> list jstr -> list (jstr * json) -> SpawnResult)
    (timestamp : jstr) (promptFile : jstr) :
  env (u "PROMPT_FILE") = Some promptFile ->
  promptFile <> [] ->
  fileExists promptFile = false ->
  rr_spawns (run env fileExists spawnSync timestamp) = [] /\
  rr_failed (run env fileExists spawnSync timestamp)
    = Some (u "Execute CLI failed: Prompt file not found: " ++ promptFile) /\
  rr_exit (run env fileExists spawnSync timestamp) = Some 1%Z.
Proof.
  intros Hp Hne Hf. unfold run. cbv zeta. rewrite Hp. cbn [or_empty].
  destruct promptFile as [|c s]; [contradiction|]. cbn [truthy negb].
  rewrite Hf. cbn [negb]. repeat split.
Qed.

Lemma run_prompt_not_found_witness :
  tool_env "foo-cli" (u "PROMPT_FILE") = Some (u "/tmp/prompt.txt") /\
  u "/tmp/prompt.txt" <> [] /\
  (fun _ : jstr => false) (u "/tmp/prompt.txt") = false /\
  rr_spawns (run (tool_env "foo-cli") (fun _ => false) ok_spawn (u "t0")) = [] /\
  rr_failed (run (tool_env "foo-cli") (fun _ => false) ok_spawn (u "t0"))
    = Some (u "Execute CLI failed: Prompt file not found: " ++ u "/tmp/prompt.txt") /\
  rr_exit (run (tool_env "foo-cli") (fun _ => false) ok_spawn (u "t0")) = Some 1%Z.
Proof.
  assert (H1 : tool_env "foo-cli" (u "PROMPT_FILE") = Some (u "/tmp/prompt.txt"))
    by reflexivity.
  assert (H2 : u "/tmp/prompt.txt" <> []) by discriminate.
  assert (H3 : (fun _ : jstr => false) (u "/tmp/prompt.txt") = false) by reflexivity.
  refine (conj H1 (conj H2 (conj H3 _))).
  exact (run_prompt_not_found (tool_env "foo-cli") (fun _ => false) ok_spawn (u "t0")
           _ H1 H2 H3).
Defined.
